(** * Backend registry of the transpile suite (backend.py)

    A shallow embedding of [BackendManager] and of the pieces of the
    qiskit interface it touches, followed by the properties that the
    design document states about the registry. *)

From Stdlib Require Import Ascii ZArith QArith Qabs Qround Qpower Lqa.
From stdpp Require Import base option list strings gmap.

Local Open Scope string_scope.

(** ** Python values *)

(** Exceptions derived from [Exception]; the handlers of backend.py
    catch exactly this class. *)
Inductive exn : Type :=
| ValueError (msg : string)
| KeyError (key : string)
| AttributeError (attr : string)
| NoiseError (msg : string)
| AerError (msg : string)
| ProviderError (msg : string).

(** Outcome of a call: a value, or a raised exception. *)
Inductive Res (A : Type) : Type :=
| Ok (a : A)
| Raise (e : exn).
Arguments Ok {A} a.
Arguments Raise {A} e.

Global Instance Res_ret : MRet Res := fun A a => Ok a.
Global Instance Res_bind : MBind Res := fun A B f r =>
  match r with
  | Ok a => f a
  | Raise e => Raise e
  end.

Definition is_ok {A} (r : Res A) : bool :=
  match r with Ok _ => true | Raise _ => false end.

(** Truthiness of an optional string argument: [None] and the empty
    string are falsy. *)
Definition truthy (s : option string) : bool :=
  match s with
  | None => false
  | Some EmptyString => false
  | Some (String _ _) => true
  end.

(** ** Floating-point numbers

    A Python [float] is a binary64 value, embedded as the rational it
    denotes.  An arithmetic result is the exact result rounded to the
    nearest value with a 53-bit significand, ties to even.  The exponent
    range is left unbounded: the one operation of backend.py, [1 - p],
    neither overflows nor produces a subnormal. *)
Module Binary64.

(** The nearest integer, the even one of two equally near. *)
Definition nearest_even (m : Q) : Z :=
  let f := Qfloor m in
  match (m - inject_Z f ?= 1 # 2)%Q with
  | Lt => f
  | Gt => (f + 1)%Z
  | Eq => if Z.even f then f else (f + 1)%Z
  end.

(** For [x] other than 0, the [e] with 2^52 <= |x| / 2^e < 2^53. *)
Definition exponent (x : Q) : Z :=
  let k := (Z.log2 (Z.abs (Qnum x)) - Z.log2 (Zpos (Qden x)) - 52)%Z in
  if Qle_bool (2 ^ 52) (Qabs x * 2 ^ (- k)) then k else (k - 1)%Z.

Definition round (x : Q) : Q :=
  if Qeq_bool x 0 then 0%Q
  else
    let e := exponent x in
    (inject_Z (nearest_even (x * 2 ^ (- e))) * 2 ^ e)%Q.

(** [a - b] *)
Definition sub (a b : Q) : Q := round (a - b).

End Binary64.

(** ** Insertion-ordered dictionaries

    A Python [dict] keeps its keys in order of first insertion;
    assigning to a key that is present replaces the value in place. *)
Module Dict.

Definition t (V : Type) : Type := list (string * V).

Definition empty {V} : t V := [].

Fixpoint get {V} (k : string) (d : t V) : option V :=
  match d with
  | [] => None
  | (k', v) :: d' => if decide (k = k') then Some v else get k d'
  end.

Definition contains {V} (k : string) (d : t V) : bool :=
  match get k d with Some _ => true | None => false end.

Fixpoint set {V} (k : string) (v : V) (d : t V) : t V :=
  match d with
  | [] => [(k, v)]
  | (k', v') :: d' =>
      if decide (k = k') then (k, v) :: d' else (k', v') :: set k v d'
  end.

Definition keys {V} (d : t V) : list string := map fst d.

End Dict.

(** ** The qiskit objects the registry handles *)

(** [backend.configuration()]: the two attributes the sources read. *)
Record Configuration : Type := {
  simulator : bool;
  basis_gates : list string
}.

(** [backend.properties()]: a calibration snapshot, the reported error
    rate of each gate on its qubits, or Python's [None]. *)
Definition Properties : Type := option (list (string * list nat * Q)).

(** A backend object handed out by a remote provider, described by the
    outcome of each method the registry calls on it. *)
Record IBMBackend : Type := {
  ibm_name : Res string;
  ibm_configuration : Res Configuration;
  ibm_properties : Res Properties
}.

(** A registered backend: the local simulator object built by
    [AerSimulator(method=...)], or an object of the remote provider. *)
Inductive Backend : Type :=
| AerSimulator (method : string)
| IBM (b : IBMBackend).

(** A quantum error channel, as a description of how it was built. *)
Inductive QuantumError : Type :=
| Depolarizing (param : Q) (num_qubits : Z)
| Pauli (noise_ops : list (string * Q))
| Calibrated (gate_error : Q)
| Compose (first second : QuantumError).

(** [NoiseModel]: the all-qubit errors by instruction name, and the
    errors local to the qubits of one instruction. *)
Record NoiseModel : Type := {
  default_quantum_errors : gmap string QuantumError;
  local_quantum_errors : list (string * list nat * QuantumError)
}.

Definition NoiseModel_new : NoiseModel :=
  {| default_quantum_errors := ∅; local_quantum_errors := [] |}.

(** The provider module [IBMQ] and the provider it returns, by the
    outcome of each call made during construction. *)
Record Provider : Type := {
  provider_backends : Res (list IBMBackend)
}.

Record IBMQModule : Type := {
  save_account : option string -> Res unit;
  load_account : Res unit;
  get_provider : option string -> option string -> option string -> Res Provider
}.

(** What backend.py takes from the simulator and the noise library: the
    check the simulator constructor makes on its method name, the
    properties of a local simulator, the channel constructors, the
    calibration reader, the two attributes of an error the noise model
    reads, and the library's table of the instructions whose number of
    qubits it knows. *)
Class Platform : Type := {
  aer_simulator_init : string -> Res unit;
  aer_properties : string -> Res Properties;
  depolarizing_error : Q -> Z -> Res QuantumError;
  pauli_error : list (string * Q) -> Res QuantumError;
  from_backend : Properties -> Res NoiseModel;
  error_ideal : QuantumError -> bool;
  error_num_qubits : QuantumError -> Z;
  instruction_qubits : string -> option Z
}.

(** [AerSimulator(method=...)]: the constructor raises when it does not
    take the method name. *)
Definition AerSimulator_new {P : Platform} (method : string) : Res Backend :=
  _ ← aer_simulator_init method;
  mret (AerSimulator method).

(** The check [add_all_qubit_quantum_error] makes for each instruction:
    an instruction of the table takes only an error on as many qubits. *)
Definition check_number_of_qubits {P : Platform} (err : QuantumError)
    (name : string) : Res unit :=
  match instruction_qubits name with
  | Some k =>
      if decide (error_num_qubits err = k) then Ok tt
      else Raise (NoiseError
                    ("QuantumError cannot be applied to instruction " ++ name))
  | None => Ok tt
  end.

(** One instruction gets the error, composed after the error it already
    has, if any. *)
Definition add_error (err : QuantumError) (m : gmap string QuantumError)
    (g : string) : gmap string QuantumError :=
  match m !! g with
  | Some old => <[g := Compose old err]> m
  | None => <[g := err]> m
  end.

Fixpoint add_errors {P : Platform} (err : QuantumError)
    (instructions : list string) (m : gmap string QuantumError)
    : Res (gmap string QuantumError) :=
  match instructions with
  | [] => Ok m
  | name :: rest =>
      _ ← check_number_of_qubits err name;
      add_errors err rest (add_error err m name)
  end.

(** [nm.add_all_qubit_quantum_error(err, instructions)], giving the model
    as the call leaves it: an ideal error is not added at all; otherwise
    each listed instruction is checked and gets the error, in order. *)
Definition add_all_qubit_quantum_error {P : Platform}
    (err : QuantumError) (instructions : list string) (nm : NoiseModel)
    : Res NoiseModel :=
  if error_ideal err then Ok nm
  else
    m ← add_errors err instructions (default_quantum_errors nm);
    mret {| default_quantum_errors := m;
            local_quantum_errors := local_quantum_errors nm |}.

(** ** The registry object *)

Record BackendManager : Type := {
  backends : Dict.t Backend;
  noise_models : gmap string NoiseModel;
  active_backend : option Backend
}.

(** A method body: it may raise, and it may change the object, also
    before it raises. *)
Definition M (A : Type) : Type := BackendManager -> Res A * BackendManager.

Global Instance M_ret : MRet M := fun A a self => (Ok a, self).
Global Instance M_bind : MBind M := fun A B f m self =>
  match m self with
  | (Ok a, self') => f a self'
  | (Raise e, self') => (Raise e, self')
  end.

Definition raise {A} (e : exn) : M A := fun self => (Raise e, self).
Definition lift {A} (r : Res A) : M A := fun self => (r, self).
Definition read {A} (f : BackendManager -> A) : M A :=
  fun self => (Ok (f self), self).
Definition write (f : BackendManager -> BackendManager) : M unit :=
  fun self => (Ok tt, f self).

(** [try: body except Exception: handler] *)
Definition try_except {A} (body : M A) (handler : exn -> M A) : M A :=
  fun self =>
    match body self with
    | (Ok a, self') => (Ok a, self')
    | (Raise e, self') => handler e self'
    end.

Definition set_backends (f : Dict.t Backend -> Dict.t Backend)
    (self : BackendManager) : BackendManager :=
  {| backends := f (backends self);
     noise_models := noise_models self;
     active_backend := active_backend self |}.

Definition set_noise_models
    (f : gmap string NoiseModel -> gmap string NoiseModel)
    (self : BackendManager) : BackendManager :=
  {| backends := backends self;
     noise_models := f (noise_models self);
     active_backend := active_backend self |}.

Definition set_active_backend (b : Backend) (self : BackendManager)
    : BackendManager :=
  {| backends := backends self;
     noise_models := noise_models self;
     active_backend := Some b |}.

(** [self.backends[name]] *)
Definition backends_getitem (name : string) : M Backend :=
  d ← read backends;
  match Dict.get name d with
  | Some b => mret b
  | None => raise (KeyError name)
  end.

Definition not_available (name : string) : exn :=
  ValueError ("Backend '" ++ name ++ "' not available.").

Module BackendManager.

Definition list_backends : M (list string) :=
  d ← read backends;
  mret (Dict.keys d).

Definition set_backend (name : string) : M Backend :=
  d ← read backends;
  if negb (Dict.contains name d) then raise (not_available name)
  else
    b ← backends_getitem name;
    _ ← write (set_active_backend b);
    a ← read active_backend;
    match a with
    | Some b => mret b
    | None => raise (AttributeError "active_backend")
    end.

Definition get_backend : M Backend :=
  a ← read active_backend;
  match a with
  | Some b => mret b
  | None => raise (AttributeError "active_backend")
  end.

(** The body of the loop over [provider.backends()]. *)
Definition register_remote (b : IBMBackend) : M unit :=
  cfg ← lift (ibm_configuration b);
  if negb (simulator cfg) then
    n ← lift (ibm_name b);
    write (set_backends (Dict.set ("IBM " ++ n) (IBM b)))
  else mret tt.

Fixpoint for_each {A} (xs : list A) (body : A -> M unit) : M unit :=
  match xs with
  | [] => mret tt
  | x :: xs' => _ ← body x; for_each xs' body
  end.

(** The statements under [try:] in the constructor. *)
Definition load_ibmq (ibmq : IBMQModule)
    (ibm_api_token ibm_hub ibm_group ibm_project : option string) : M unit :=
  _ ← lift (save_account ibmq ibm_api_token);
  _ ← lift (load_account ibmq);
  provider ← lift (get_provider ibmq ibm_hub ibm_group ibm_project);
  bs ← lift (provider_backends provider);
  for_each bs register_remote.

Definition __init__ {P : Platform} (IBMQ : option IBMQModule)
    (ibm_api_token ibm_hub ibm_group ibm_project : option string) : M unit :=
  _ ← write (set_backends (fun _ => Dict.empty));
  _ ← write (set_noise_models (fun _ => ∅));
  statevector ← lift (AerSimulator_new "statevector");
  _ ← write (set_backends (Dict.set "Aer (statevector)" statevector));
  qasm ← lift (AerSimulator_new "qasm");
  _ ← write (set_backends (Dict.set "Aer (qasm)" qasm));
  _ ← match IBMQ with
      | Some ibmq =>
          if truthy ibm_api_token then
            try_except
              (load_ibmq ibmq ibm_api_token ibm_hub ibm_group ibm_project)
              (fun _ => mret tt)
          else mret tt
      | None => mret tt
      end;
  b ← backends_getitem "Aer (statevector)";
  write (set_active_backend b).

(** [backend.properties()] *)
Definition properties {P : Platform} (backend : Backend) : Res Properties :=
  match backend with
  | AerSimulator method => aer_properties method
  | IBM b => ibm_properties b
  end.

Definition create_noise_model {P : Platform} (backend_name : string)
    : M NoiseModel :=
  d ← read backends;
  if negb (Dict.contains backend_name d) then
    raise (not_available backend_name)
  else
    backend ← backends_getitem backend_name;
    nm ← try_except
           (props ← lift (properties backend);
            lift (from_backend props))
           (fun _ => mret NoiseModel_new);
    _ ← write (set_noise_models (<[backend_name := nm]>));
    mret nm.

Definition get_noise_model (backend_name : string) : M NoiseModel :=
  c ← read noise_models;
  mret (default NoiseModel_new (c !! backend_name)).

Definition sample_depolarizing {P : Platform} (p : Q) : Res NoiseModel :=
  err ← depolarizing_error p 1;
  let nm := NoiseModel_new in
  add_all_qubit_quantum_error err ["u1"; "u2"; "u3"] nm.

Definition sample_pauli {P : Platform} (p : Q) : Res NoiseModel :=
  err ← pauli_error [("X", p); ("I", Binary64.sub 1 p)];
  let nm := NoiseModel_new in
  add_all_qubit_quantum_error err ["cx"] nm.

End BackendManager.

(** An object before its constructor body has run: no attribute is set. *)
Definition blank : BackendManager :=
  {| backends := Dict.empty; noise_models := ∅; active_backend := None |}.

(** [BackendManager(ibm_api_token, ibm_hub, ibm_group, ibm_project)] with
    the module global [IBMQ]. *)
Definition new {P : Platform} (IBMQ : option IBMQModule)
    (ibm_api_token ibm_hub ibm_group ibm_project : option string)
    : Res BackendManager :=
  match BackendManager.__init__ IBMQ ibm_api_token ibm_hub ibm_group
          ibm_project blank with
  | (Ok _, self) => Ok self
  | (Raise e, _) => Raise e
  end.

(** ** Calls on a constructed registry *)

Inductive call : Type :=
| list_backends_call
| set_backend_call (name : string)
| get_backend_call
| create_noise_model_call (backend_name : string)
| get_noise_model_call (backend_name : string).

(** The object after a call, whether the call returned or raised. *)
Definition after {P : Platform} (c : call) (self : BackendManager)
    : BackendManager :=
  match c with
  | list_backends_call => (BackendManager.list_backends self).2
  | set_backend_call name => (BackendManager.set_backend name self).2
  | get_backend_call => (BackendManager.get_backend self).2
  | create_noise_model_call n => (BackendManager.create_noise_model n self).2
  | get_noise_model_call n => (BackendManager.get_noise_model n self).2
  end.

(** The states a registry goes through after construction. *)
Inductive lifetime {P : Platform} (self0 : BackendManager)
    : BackendManager -> Prop :=
| lifetime_new : lifetime self0 self0
| lifetime_call c self : lifetime self0 self -> lifetime self0 (after c self).

(** ** Registration order, read off the provider's answers *)

(** The assignments [self.backends[key] = b] the loop performs, in
    order, up to the first call that raises. *)
Fixpoint assigned (bs : list IBMBackend) : list (string * Backend) :=
  match bs with
  | [] => []
  | b :: rest =>
      match ibm_configuration b with
      | Raise _ => []
      | Ok cfg =>
          if simulator cfg then assigned rest
          else match ibm_name b with
               | Raise _ => []
               | Ok n => ("IBM " ++ n, IBM b) :: assigned rest
               end
      end
  end.

(** What the provider answers before the loop starts: [None] when
    discovery is not attempted, otherwise the list of backends or the
    first exception of the four calls. *)
Definition listing (IBMQ : option IBMQModule)
    (ibm_api_token ibm_hub ibm_group ibm_project : option string)
    : option (Res (list IBMBackend)) :=
  match IBMQ with
  | None => None
  | Some ibmq =>
      if truthy ibm_api_token then
        Some (_ ← save_account ibmq ibm_api_token;
              _ ← load_account ibmq;
              provider ← get_provider ibmq ibm_hub ibm_group ibm_project;
              provider_backends provider)
      else None
  end.

Definition remote_assignments (IBMQ : option IBMQModule)
    (ibm_api_token ibm_hub ibm_group ibm_project : option string)
    : list (string * Backend) :=
  match listing IBMQ ibm_api_token ibm_hub ibm_group ibm_project with
  | Some (Ok bs) => assigned bs
  | _ => []
  end.

Definition remote_keys (IBMQ : option IBMQModule)
    (ibm_api_token ibm_hub ibm_group ibm_project : option string)
    : list string :=
  map fst (remote_assignments IBMQ ibm_api_token ibm_hub ibm_group
             ibm_project).

(** The entries a sequence of assignments leaves in an empty dict. *)
Definition assign_all (es : list (string * Backend)) (d : Dict.t Backend)
    : Dict.t Backend :=
  foldl (fun d e => Dict.set e.1 e.2 d) d es.

Definition builtins : Dict.t Backend :=
  [("Aer (statevector)", AerSimulator "statevector");
   ("Aer (qasm)", AerSimulator "qasm")].

(** Each name once, at the place of its first occurrence. *)
Fixpoint first_occurrences (l : list string) : list string :=
  match l with
  | [] => []
  | x :: l' => x :: filter (fun y => y ≠ x) (first_occurrences l')
  end.

(** A remote backend whose registration is complete: the entry holds the
    provider's object itself, a device and not a simulator, under the key
    built from its name. *)
Definition fully_registered (key : string) (backend : Backend) : Prop :=
  exists b cfg n,
    backend = IBM b /\ ibm_configuration b = Ok cfg /\
    simulator cfg = false /\ ibm_name b = Ok n /\ key = "IBM " ++ n.

Definition is_builtin (entry : string * Backend) : bool :=
  match entry.2 with
  | AerSimulator _ => true
  | IBM _ => false
  end.

(** ** Circuits of the shell (ui.py) *)

Record Instruction : Type := {
  gate : string;
  qargs : list nat
}.

(** The circuit [_add_sample] builds for a given number of qubits. *)
Definition sample_circuit (qubits : nat) : list Instruction :=
  [{| gate := "h"; qargs := [0%nat] |}]
  ++ map (fun i => {| gate := "cx"; qargs := [i; (i + 1)%nat] |})
         (seq 0 (qubits - 1))
  ++ [{| gate := "save_statevector"; qargs := seq 0 qubits |}].

(** An instruction name carries an all-qubit channel in a model. *)
Definition channel_of (nm : NoiseModel) (g : string) : option QuantumError :=
  default_quantum_errors nm !! g.

(** ** Numbers *)

(** Unit roundoff of binary64, 2^-53, and the tolerance of the design
    document, 1e-9. *)
Definition unit_roundoff : Q := 1 # 9007199254740992.
Definition tolerance : Q := 1 # 1000000000.

Definition total_weight (noise_ops : list (string * Q)) : Q :=
  foldr Qplus 0%Q (map snd noise_ops).

(** ** The library as documented

    The checks of qiskit-aer that backend.py runs into: those of the
    simulator constructor, of the channel constructors, of
    [NoiseModel.from_backend] and of [add_all_qubit_quantum_error].  None
    of this is code of the repository; it serves to run backend.py on
    concrete inputs. *)
Module Aer.

Definition Qltb (a b : Q) : bool := negb (Qle_bool b a).

(** The simulation methods [AerSimulator] takes. *)
Definition available_methods : list string :=
  ["automatic"; "statevector"; "density_matrix"; "stabilizer";
   "matrix_product_state"; "extended_stabilizer"; "unitary"; "superop"].

Definition aer_simulator_init (method : string) : Res unit :=
  if bool_decide (method ∈ available_methods) then Ok tt
  else Raise (AerError ("Invalid simulation method " ++ method)).

(** A local simulator carries no calibration data. *)
Definition aer_properties (method : string) : Res Properties := Ok None.

(** [depolarizing_error(param, num_qubits)]: the parameter must lie
    between 0 and 4^n / (4^n - 1). *)
Definition depolarizing_error (param : Q) (num_qubits : Z)
    : Res QuantumError :=
  if (num_qubits <? 1)%Z then
    Raise (NoiseError "num_qubits must be a positive integer.")
  else
    let num_terms := (4 ^ num_qubits)%Z in
    let max_param := (inject_Z num_terms / inject_Z (num_terms - 1))%Q in
    if Qltb param 0 || Qltb max_param param then
      Raise (NoiseError "Depolarizing parameter out of range.")
    else Ok (Depolarizing param num_qubits).

(** numpy's [isclose(a, 1)] with the tolerance of the library. *)
Definition isclose_1 (a : Q) : bool :=
  Qle_bool (Qabs (a - 1)) (1 # 100000000)%Q.

(** A Pauli label: a word over I, X, Y and Z. *)
Definition is_pauli_letter (c : Ascii.ascii) : bool :=
  bool_decide (c ∈ ["I"; "X"; "Y"; "Z"]%char).

Definition is_pauli_label (l : string) : bool :=
  negb (bool_decide (l = EmptyString))
  && forallb is_pauli_letter (String.list_ascii_of_string l).

Definition is_identity_label (l : string) : bool :=
  forallb (fun c => bool_decide (c = "I"%char)) (String.list_ascii_of_string l).

Definition same_length (labels : list string) : bool :=
  match labels with
  | [] => false
  | l :: rest =>
      forallb (fun l' => bool_decide (String.length l' = String.length l))
              rest
  end.

(** [pauli_error(noise_ops)]: a non-empty list of Pauli labels of one
    length, with weights that sum to 1; a weight below 0 by more than the
    tolerance is refused. *)
Definition pauli_error (noise_ops : list (string * Q)) : Res QuantumError :=
  if negb (forallb is_pauli_label (map fst noise_ops)
           && same_length (map fst noise_ops)) then
    Raise (NoiseError "Invalid Pauli labels.")
  else if existsb (fun w => Qltb w (- (1 # 100000000))) (map snd noise_ops) then
    Raise (NoiseError "Probabilities are invalid.")
  else if negb (isclose_1 (total_weight noise_ops)) then
    Raise (NoiseError "Probabilities are not normalized.")
  else Ok (Pauli noise_ops).

(** [NoiseModel.from_backend(properties)]: one local error per reported
    gate; [None] is rejected. *)
Definition from_backend (props : Properties) : Res NoiseModel :=
  match props with
  | None => Raise (NoiseError "None is not a backend or BackendProperties.")
  | Some gates =>
      Ok {| default_quantum_errors := ∅;
            local_quantum_errors :=
              map (fun g => (g.1.1, g.1.2, Calibrated g.2)) gates |}
  end.

(** [error.num_qubits] *)
Fixpoint error_num_qubits (err : QuantumError) : Z :=
  match err with
  | Depolarizing _ num_qubits => num_qubits
  | Pauli noise_ops =>
      match noise_ops with
      | [] => 0
      | (label, _) :: _ => Z.of_nat (String.length label)
      end
  | Calibrated _ => 1
  | Compose first _ => error_num_qubits first
  end.

(** [error.ideal()]: only terms of weight above 0 count, and all of them
    are the identity.  The Pauli terms of a depolarizing error have the
    weight [param / 4^n], which is 0 as a float up to 2^-1075. *)
Fixpoint error_ideal (err : QuantumError) : bool :=
  match err with
  | Depolarizing param num_qubits =>
      Qle_bool (param / inject_Z (4 ^ num_qubits)) (2 ^ (-1075))
  | Pauli noise_ops =>
      forallb (fun op => is_identity_label op.1 || Qle_bool op.2 0) noise_ops
  | Calibrated gate_error => Qle_bool gate_error 0
  | Compose first second => error_ideal first && error_ideal second
  end.

(** The instructions whose number of qubits the noise model knows. *)
Definition instruction_qubits (name : string) : option Z :=
  if bool_decide
       (name ∈ ["u1"; "u2"; "u3"; "u"; "p"; "r"; "rx"; "ry"; "rz"; "id";
                "x"; "y"; "z"; "h"; "s"; "sdg"; "sx"; "sxdg"; "t"; "tdg"])
  then Some 1%Z
  else if bool_decide
            (name ∈ ["swap"; "cx"; "cy"; "cz"; "csx"; "cp"; "cu"; "cu1";
                     "cu2"; "cu3"; "rxx"; "ryy"; "rzz"; "rzx"; "ecr"])
  then Some 2%Z
  else if bool_decide (name ∈ ["ccx"; "cswap"]) then Some 3%Z
  else None.

Definition platform : Platform :=
  Build_Platform aer_simulator_init aer_properties depolarizing_error
                 pauli_error from_backend error_ideal error_num_qubits
                 instruction_qubits.

End Aer.

(** ** The lookup as the design document words it

    The cached model if there is one; otherwise the model derived from
    the calibration data of the backend; an empty model when that data is
    absent or cannot be used. *)
Definition noise_model_for {P : Platform} (name : string)
    (self : BackendManager) : NoiseModel :=
  match noise_models self !! name with
  | Some cached => cached
  | None =>
      match Dict.get name (backends self) with
      | Some backend =>
          match BackendManager.properties backend ≫= from_backend with
          | Ok derived => derived
          | Raise _ => NoiseModel_new
          end
      | None => NoiseModel_new
      end
  end.

(** ** Sample inputs *)

Module Example.

(** A five-qubit device with a calibrated controlled-X. *)
Definition lima : IBMBackend :=
  {| ibm_name := Ok "lima";
     ibm_configuration :=
       Ok {| simulator := false;
             basis_gates := ["id"; "rz"; "sx"; "x"; "cx"] |};
     ibm_properties := Ok (Some [("cx", [0%nat; 1%nat], 1 # 100)]) |}.

(** A device whose name cannot be read. *)
Definition broken : IBMBackend :=
  {| ibm_name := Raise (ProviderError "name unavailable");
     ibm_configuration := Ok {| simulator := false; basis_gates := [] |};
     ibm_properties := Ok None |}.

Definition ibmq (bs : list IBMBackend) : IBMQModule :=
  {| save_account := fun _ => Ok tt;
     load_account := Ok tt;
     get_provider := fun _ _ _ => Ok {| provider_backends := Ok bs |} |}.

(** The registry built with a token when the provider lists [lima]. *)
Definition registry : BackendManager :=
  {| backends := (builtins ++ [("IBM lima", IBM lima)])%list;
     noise_models := ∅;
     active_backend := Some (AerSimulator "statevector") |}.

Definition lima_model : NoiseModel :=
  {| default_quantum_errors := ∅;
     local_quantum_errors :=
       [("cx", [0%nat; 1%nat], Calibrated (1 # 100))] |}.

(** The documented library with a simulator constructor that takes
    every method name; the registry of backend.py can be built on it. *)
Definition patched : Platform :=
  Build_Platform (fun _ => Ok tt) Aer.aer_properties Aer.depolarizing_error
                 Aer.pauli_error Aer.from_backend Aer.error_ideal
                 Aer.error_num_qubits Aer.instruction_qubits.

(** A native gate set that has the Hadamard gate of the sample
    circuits. *)
Definition native : Configuration :=
  {| simulator := true;
     basis_gates := ["u1"; "u2"; "u3"; "cx"; "id"; "x"; "h"] |}.

End Example.

(** ** Sequences of calls *)

(** The object after a sequence of calls, made in order. *)
Definition after_all {P : Platform} (cs : list call) (self : BackendManager)
    : BackendManager :=
  foldl (fun s c => after c s) self cs.

(** The model [create_noise_model] settles on for a backend: the one
    derived from its properties, or an empty one when [properties()] or
    [from_backend] raises. *)
Definition derived_model {P : Platform} (backend : Backend) : NoiseModel :=
  match BackendManager.properties backend ≫= from_backend with
  | Ok nm => nm
  | Raise _ => NoiseModel_new
  end.

(** The backend of the last [set_backend] of a sequence whose name is in
    the dict [d]; [start] when there is none. *)
Fixpoint last_selected (d : Dict.t Backend) (cs : list call)
    (start : option Backend) : option Backend :=
  match cs with
  | [] => start
  | set_backend_call name :: cs' =>
      last_selected d cs'
        (match Dict.get name d with Some b => Some b | None => start end)
  | _ :: cs' => last_selected d cs' start
  end.

(** The model of the last [create_noise_model(name)] of a sequence, for a
    name in the dict [d]; [start] when there is none. *)
Fixpoint last_created {P : Platform} (d : Dict.t Backend) (name : string)
    (cs : list call) (start : option NoiseModel) : option NoiseModel :=
  match cs with
  | [] => start
  | create_noise_model_call n :: cs' =>
      last_created d name cs'
        (if decide (n = name) then
           match Dict.get n d with
           | Some backend => Some (derived_model backend)
           | None => start
           end
         else start)
  | _ :: cs' => last_created d name cs' start
  end.

(** ** Devices of a listing *)

(** [b] is a device, not a simulator, that reports the name [n]. *)
Definition is_device_named (n : string) (b : IBMBackend) : bool :=
  match ibm_configuration b, ibm_name b with
  | Ok cfg, Ok n' => negb (simulator cfg) && bool_decide (n' = n)
  | _, _ => false
  end.

(** The last such device of a listing. *)
Definition last_device (n : string) (bs : list IBMBackend)
    : option IBMBackend :=
  List.find (is_device_named n) (rev bs).

(** The registry with the two local simulators only. *)
Definition local_registry : BackendManager :=
  {| backends := builtins;
     noise_models := ∅;
     active_backend := Some (AerSimulator "statevector") |}.

(** ** The registry in the shell (ui.py) *)

Module QTranspileApp.

(** [self.backend_mgr = BackendManager()] *)
Definition backend_mgr {P : Platform} (IBMQ : option IBMQModule)
    : Res BackendManager :=
  new IBMQ None None None None.

(** [backends = list(self.backend_mgr.backends.keys())], the values of
    the backend selector. *)
Definition combobox_values (mgr : BackendManager) : list string :=
  Dict.keys (backends mgr).

(** [backends[0]], the value the selector starts with; [None] stands for
    the [IndexError] of an empty list. *)
Definition initial_backend_var (mgr : BackendManager) : option string :=
  combobox_values mgr !! 0%nat.

(** [backend = self.backend_mgr.set_backend(self.backend_var.get())] *)
Definition select_backend (backend_var : string) : M Backend :=
  BackendManager.set_backend backend_var.

End QTranspileApp.

(** * Properties *)

(** Unfolding of the method monad down to plain pairs. *)
Ltac run :=
  repeat progress
    (unfold mbind, M_bind, mret, M_ret, Res_bind, Res_ret, read, write,
       raise, lift, try_except, backends_getitem in *;
     simpl in *).

(** ** Dictionaries *)

Module DictFacts.

Lemma contains_get {V} (k : string) (d : Dict.t V) :
  Dict.contains k d = true <-> is_Some (Dict.get k d).
Proof.
  unfold Dict.contains. destruct (Dict.get k d); split; intros H.
  - by eexists.
  - done.
  - done.
  - by destruct H.
Qed.

Lemma contains_keys {V} (k : string) (d : Dict.t V) :
  Dict.contains k d = true <-> k ∈ Dict.keys d.
Proof.
  unfold Dict.contains, Dict.keys.
  induction d as [|[k' v] d IH]; simpl.
  - split; [done | intros H; inversion H].
  - destruct (decide (k = k')) as [->|Hne].
    + split; [intros _; left | done].
    + rewrite IH. split; [by right |].
      intros H. inversion H; subst; [done | assumption].
Qed.

Lemma get_set_eq {V} (k : string) (v : V) (d : Dict.t V) :
  Dict.get k (Dict.set k v d) = Some v.
Proof.
  induction d as [|[k' v'] d IH]; simpl.
  - by rewrite decide_True.
  - destruct (decide (k = k')) as [->|Hne]; simpl.
    + by rewrite decide_True.
    + by rewrite decide_False.
Qed.

Lemma get_set_ne {V} (k k' : string) (v : V) (d : Dict.t V) :
  k ≠ k' -> Dict.get k' (Dict.set k v d) = Dict.get k' d.
Proof.
  intros Hne. induction d as [|[k0 v0] d IH]; simpl.
  - by rewrite decide_False.
  - destruct (decide (k = k0)) as [->|Hne0]; simpl.
    + by rewrite !decide_False.
    + by rewrite IH.
Qed.

Lemma keys_set {V} (k : string) (v : V) (d : Dict.t V) :
  Dict.keys (Dict.set k v d) =
  if Dict.contains k d then Dict.keys d else (Dict.keys d ++ [k])%list.
Proof.
  unfold Dict.contains, Dict.keys.
  induction d as [|[k0 v0] d IH]; simpl; [done |].
  destruct (decide (k = k0)) as [->|Hne]; simpl; [done |].
  rewrite IH. by destruct (Dict.get k d).
Qed.

Lemma elem_of_set {V} (k k' : string) (v v' : V) (d : Dict.t V) :
  (k', v') ∈ Dict.set k v d -> (k' = k /\ v' = v) \/ (k', v') ∈ d.
Proof.
  induction d as [|[k0 v0] d IH]; simpl.
  - intros H. apply list_elem_of_singleton in H. left. by inversion H.
  - destruct (decide (k = k0)) as [->|Hne]; intros H.
    + apply elem_of_cons in H as [H|H]; [left; by inversion H |].
      right. by right.
    + apply elem_of_cons in H as [H|H]; [right; rewrite H; by left |].
      destruct (IH H) as [?|?]; [by left | right; by right].
Qed.

End DictFacts.

(** ** The constructor *)

Lemma set_app_notin {V} (k : string) (v : V) (d0 d : Dict.t V) :
  k ∉ Dict.keys d0 -> Dict.set k v (d0 ++ d)%list = (d0 ++ Dict.set k v d)%list.
Proof.
  induction d0 as [|[k0 v0] d0 IH]; simpl; intros Hk; [done |].
  apply not_elem_of_cons in Hk as [Hne Hk].
  rewrite decide_False by done. by rewrite IH.
Qed.

Lemma assign_all_app (d0 d : Dict.t Backend) (es : list (string * Backend)) :
  Forall (fun e => e.1 ∉ Dict.keys d0) es ->
  assign_all es (d0 ++ d)%list = (d0 ++ assign_all es d)%list.
Proof.
  intros Hes. revert d.
  induction Hes as [|e es He _ IH]; intros d; simpl; [done |].
  rewrite set_app_notin by done. apply IH.
Qed.

Lemma assign_all_snoc (es : list (string * Backend)) e d :
  assign_all (es ++ [e]) d = Dict.set e.1 e.2 (assign_all es d).
Proof. unfold assign_all. by rewrite foldl_app. Qed.

(** Every assignment of the loop is a complete registration of one of
    the provider's backends. *)
Lemma assigned_complete (bs : list IBMBackend) :
  Forall (fun e => fully_registered e.1 e.2 /\ exists b, b ∈ bs /\ e.2 = IBM b)
         (assigned bs).
Proof.
  induction bs as [|b bs IH]; simpl; [constructor |].
  assert (Hrest : Forall
            (fun e => fully_registered e.1 e.2 /\
                      exists b', b' ∈ b :: bs /\ e.2 = IBM b')
            (assigned bs)).
  { eapply Forall_impl; [exact IH |].
    intros e [Hf (b' & Hin & Heq)]. split; [done |].
    exists b'. split; [by right | done]. }
  destruct (ibm_configuration b) as [cfg|] eqn:Hc; [| constructor].
  destruct (simulator cfg) eqn:Hs; [done |].
  destruct (ibm_name b) as [n|] eqn:Hn; [| constructor].
  constructor; [| done]. simpl. split.
  - by exists b, cfg, n.
  - exists b. split; [by left | done].
Qed.

Lemma fully_registered_not_builtin (k : string) (v : Backend) :
  fully_registered k v ->
  (k ∉ Dict.keys builtins) /\ is_builtin (k, v) = false.
Proof.
  intros (b & cfg & n & -> & _ & _ & _ & ->). split; [| done].
  simpl. intros H.
  repeat (apply elem_of_cons in H as [H|H]; [discriminate H |]).
  inversion H.
Qed.

Lemma assigned_not_builtin (bs : list IBMBackend) :
  Forall (fun e => e.1 ∉ Dict.keys builtins) (assigned bs).
Proof.
  eapply Forall_impl; [apply assigned_complete |].
  intros [k v] [Hf _]. by apply fully_registered_not_builtin in Hf as [? _].
Qed.

(** The loop, whatever its outcome, has performed exactly the
    assignments of [assigned]. *)
Lemma for_each_register (bs : list IBMBackend) (self : BackendManager) :
  (BackendManager.for_each bs BackendManager.register_remote self).2 =
  set_backends (assign_all (assigned bs)) self.
Proof.
  revert self. induction bs as [|b bs IH]; intros self; simpl.
  - by destruct self.
  - unfold BackendManager.register_remote. run.
    destruct (ibm_configuration b) as [cfg|]; simpl; [| by destruct self].
    destruct (simulator cfg); simpl; [apply IH |].
    destruct (ibm_name b) as [n|]; simpl; [| by destruct self].
    rewrite IH. reflexivity.
Qed.

Lemma remote_assignments_not_builtin IBMQ tok hub grp prj :
  Forall (fun e => e.1 ∉ Dict.keys builtins)
         (remote_assignments IBMQ tok hub grp prj).
Proof.
  unfold remote_assignments.
  destruct (listing IBMQ tok hub grp prj) as [[bs|]|]; try constructor.
  apply assigned_not_builtin.
Qed.

(** The constructor raises what a simulator constructor raises, the
    statevector one first.  Otherwise it returns, and leaves the two
    built-in simulators, then what the loop assigned, the first simulator
    being active. *)
Lemma new_run {P : Platform} IBMQ tok hub grp prj :
  new IBMQ tok hub grp prj =
  (_ ← aer_simulator_init "statevector";
   _ ← aer_simulator_init "qasm";
   mret {| backends :=
             (builtins
              ++ assign_all (remote_assignments IBMQ tok hub grp prj) [])%list;
           noise_models := ∅;
           active_backend := Some (AerSimulator "statevector") |}).
Proof.
  pose proof (remote_assignments_not_builtin IBMQ tok hub grp prj) as Hnb.
  rewrite <- (assign_all_app builtins [] _ Hnb). clear Hnb.
  unfold new, BackendManager.__init__, AerSimulator_new, remote_assignments,
    listing.
  run.
  destruct (aer_simulator_init "statevector") as [[]|]; simpl;
    [| reflexivity].
  destruct (aer_simulator_init "qasm") as [[]|]; simpl; [| reflexivity].
  destruct IBMQ as [ibmq|]; [| reflexivity].
  destruct (truthy tok); [| reflexivity].
  unfold BackendManager.load_ibmq. run.
  destruct (save_account ibmq tok) as [[]|]; simpl; [| reflexivity].
  destruct (load_account ibmq) as [[]|]; simpl; [| reflexivity].
  destruct (get_provider ibmq hub grp prj) as [provider|]; simpl;
    [| reflexivity].
  destruct (provider_backends provider) as [bs|]; simpl; [| reflexivity].
  match goal with
  | |- context [BackendManager.for_each bs _ ?s] =>
      pose proof (for_each_register bs s) as Hloop;
      destruct (BackendManager.for_each bs BackendManager.register_remote s)
        as [r self']
  end.
  simpl in Hloop. subst self'.
  assert (Hget : Dict.get "Aer (statevector)"
                   (assign_all (assigned bs) (builtins ++ [])%list)
                 = Some (AerSimulator "statevector")).
  { rewrite assign_all_app by apply assigned_not_builtin. reflexivity. }
  destruct r; run; rewrite Hget; reflexivity.
Qed.

(** A constructed registry. *)
Lemma new_ok {P : Platform} IBMQ tok hub grp prj (self : BackendManager) :
  new IBMQ tok hub grp prj = Ok self ->
  self =
  {| backends :=
       (builtins
        ++ assign_all (remote_assignments IBMQ tok hub grp prj) [])%list;
     noise_models := ∅;
     active_backend := Some (AerSimulator "statevector") |}.
Proof.
  rewrite new_run. run.
  destruct (aer_simulator_init "statevector") as [[]|]; [| done].
  destruct (aer_simulator_init "qasm") as [[]|]; [| done].
  by intros [= <-].
Qed.

(** ** Registration order *)

Lemma elem_of_first_occurrences (x : string) (l : list string) :
  x ∈ first_occurrences l <-> x ∈ l.
Proof.
  induction l as [|y l IH]; simpl; [done |].
  rewrite !elem_of_cons, list_elem_of_filter, IH.
  destruct (decide (x = y)); tauto.
Qed.

Lemma NoDup_first_occurrences (l : list string) :
  NoDup (first_occurrences l).
Proof.
  induction l as [|y l IH]; simpl; [constructor |].
  constructor.
  - rewrite list_elem_of_filter. tauto.
  - by apply NoDup_filter.
Qed.

Lemma first_occurrences_snoc (l : list string) (k : string) :
  first_occurrences (l ++ [k]) =
  if decide (k ∈ l) then first_occurrences l
  else (first_occurrences l ++ [k])%list.
Proof.
  induction l as [|x l IH]; simpl; [done |].
  rewrite IH. destruct (decide (k ∈ l)) as [Hin|Hnin].
  - rewrite decide_True; [done | by right].
  - rewrite filter_app, filter_cons, filter_nil.
    destruct (decide (k ≠ x)) as [Hne|Heq].
    + rewrite decide_False; [done |].
      rewrite elem_of_cons. tauto.
    + apply dec_stable in Heq as ->.
      rewrite decide_True by left. by rewrite app_nil_r.
Qed.

(** A dict filled from empty lists its keys in order of first
    assignment. *)
Lemma keys_assign_all (es : list (string * Backend)) :
  Dict.keys (assign_all es []) = first_occurrences (map fst es).
Proof.
  induction es as [|e es IH] using rev_ind; [done |].
  rewrite assign_all_snoc, DictFacts.keys_set, map_app, IH. simpl.
  rewrite first_occurrences_snoc.
  destruct (Dict.contains e.1 (assign_all es [])) eqn:Hc.
  - apply DictFacts.contains_keys in Hc.
    rewrite IH, elem_of_first_occurrences in Hc.
    by rewrite decide_True.
  - rewrite decide_False; [done |].
    intros Hin. apply elem_of_first_occurrences in Hin.
    rewrite <- IH in Hin. apply DictFacts.contains_keys in Hin. congruence.
Qed.

(** Every entry of such a dict is one of the assignments. *)
Lemma entries_assign_all (es : list (string * Backend)) :
  assign_all es [] ⊆ es.
Proof.
  induction es as [|e es IH] using rev_ind; [done |].
  rewrite assign_all_snoc. intros [k v] Hin.
  apply DictFacts.elem_of_set in Hin as [[-> ->]|Hin].
  - apply elem_of_app. right. destruct e. by left.
  - apply elem_of_app. left. by apply IH.
Qed.

(** ** Methods, run *)

Lemma set_backend_run (name : string) (self : BackendManager) :
  BackendManager.set_backend name self =
  match Dict.get name (backends self) with
  | Some b => (Ok b, set_active_backend b self)
  | None => (Raise (not_available name), self)
  end.
Proof.
  unfold BackendManager.set_backend. run. unfold Dict.contains.
  destruct (Dict.get name (backends self)) eqn:Hget; simpl;
    [rewrite Hget |]; reflexivity.
Qed.

Lemma get_noise_model_run (name : string) (self : BackendManager) :
  BackendManager.get_noise_model name self =
  (Ok (default NoiseModel_new (noise_models self !! name)), self).
Proof. reflexivity. Qed.

(** The model [create_noise_model] settles on for a backend: the one
    derived from its properties, or an empty one when either call
    raises. *)
Lemma create_noise_model_run {P : Platform} (name : string)
    (self : BackendManager) :
  BackendManager.create_noise_model name self =
  match Dict.get name (backends self) with
  | Some backend =>
      let nm := match BackendManager.properties backend ≫= from_backend with
                | Ok nm => nm
                | Raise _ => NoiseModel_new
                end in
      (Ok nm, set_noise_models (<[name := nm]>) self)
  | None => (Raise (not_available name), self)
  end.
Proof.
  unfold BackendManager.create_noise_model. run. unfold Dict.contains.
  destruct (Dict.get name (backends self)) as [backend|] eqn:Hget; simpl;
    [rewrite Hget | done].
  destruct (BackendManager.properties backend) as [props|]; simpl;
    [destruct (from_backend props) |]; reflexivity.
Qed.

(** No method called after construction assigns to [self.backends]. *)
Lemma after_backends {P : Platform} (c : call) (self : BackendManager) :
  backends (after c self) = backends self.
Proof.
  destruct c as [|name| |name|name]; simpl.
  - reflexivity.
  - rewrite set_backend_run.
    by destruct (Dict.get name (backends self)).
  - unfold BackendManager.get_backend. run.
    by destruct (active_backend self).
  - rewrite create_noise_model_run.
    by destruct (Dict.get name (backends self)).
  - reflexivity.
Qed.

Lemma lifetime_backends {P : Platform} (self0 self : BackendManager) :
  lifetime self0 self -> backends self = backends self0.
Proof.
  induction 1 as [|c self _ IH]; [done |]. by rewrite after_backends.
Qed.

(** * The registry *)

(** C1. Selecting a backend by name.  A name that is not registered
    raises [ValueError] (the unknown-backend failure) and leaves the
    object, so also its active backend, as it was.  A registered name
    makes the named backend the active one and returns it. *)
Theorem set_backend_selects (self : BackendManager) (name : string) :
  match Dict.get name (backends self) with
  | None =>
      Dict.contains name (backends self) = false /\
      BackendManager.set_backend name self =
        (Raise (not_available name), self)
  | Some b =>
      Dict.contains name (backends self) = true /\
      exists self',
        BackendManager.set_backend name self = (Ok b, self') /\
        active_backend self' = Some b /\
        BackendManager.get_backend self' = (Ok b, self') /\
        backends self' = backends self /\
        noise_models self' = noise_models self
  end.
Proof.
  rewrite set_backend_run. unfold Dict.contains.
  destruct (Dict.get name (backends self)) as [b|]; [| done].
  split; [done |]. by exists (set_active_backend b self).
Qed.

(** C9. [get_noise_model] returns for every name, registered or not: the
    cached model, or an empty model when nothing is cached, and the
    object is left as it was.  [create_noise_model] on a name that is
    not registered raises [ValueError]. *)
Theorem get_noise_model_never_raises {P : Platform}
    (self : BackendManager) (name : string) :
  (exists nm,
     BackendManager.get_noise_model name self = (Ok nm, self) /\
     match noise_models self !! name with
     | Some cached => nm = cached
     | None => nm = NoiseModel_new
     end) /\
  match Dict.get name (backends self) with
  | None =>
      BackendManager.create_noise_model name self =
        (Raise (not_available name), self)
  | Some _ =>
      is_ok (BackendManager.create_noise_model name self).1 = true
  end.
Proof.
  split.
  - rewrite get_noise_model_run. eexists. split; [done |].
    by destruct (noise_models self !! name).
  - rewrite create_noise_model_run.
    by destruct (Dict.get name (backends self)).
Qed.

(** C2, as the code has it.  [get_noise_model] is a plain cache lookup:
    the cached model, else an empty model, with no derivation and no
    change to the cache.  Derivation is [create_noise_model]: for a
    registered name it derives a model from the properties of the
    backend, takes an empty model when [properties()] or [from_backend]
    raises, caches the model under the name and returns it; for a name
    that is not registered it raises [ValueError]. *)
Theorem noise_model_lookup_and_derivation {P : Platform}
    (self : BackendManager) (name : string) :
  BackendManager.get_noise_model name self =
    (Ok (default NoiseModel_new (noise_models self !! name)), self) /\
  match Dict.get name (backends self) with
  | Some backend =>
      exists nm self',
        BackendManager.create_noise_model name self = (Ok nm, self') /\
        match BackendManager.properties backend with
        | Raise _ => nm = NoiseModel_new
        | Ok props =>
            match from_backend props with
            | Ok derived => nm = derived
            | Raise _ => nm = NoiseModel_new
            end
        end /\
        noise_models self' = <[name := nm]> (noise_models self) /\
        backends self' = backends self /\
        active_backend self' = active_backend self /\
        BackendManager.get_noise_model name self' = (Ok nm, self')
  | None =>
      BackendManager.create_noise_model name self =
        (Raise (not_available name), self)
  end.
Proof.
  split; [apply get_noise_model_run |].
  rewrite create_noise_model_run.
  destruct (Dict.get name (backends self)) as [backend|]; [| done].
  eexists _, _. split; [reflexivity |].
  split; [| split; [done | split; [done | split; [done |]]]].
  - run. destruct (BackendManager.properties backend) as [props|]; [| done].
    by destruct (from_backend props).
  - rewrite get_noise_model_run. simpl. by rewrite lookup_insert_eq.
Qed.

(** C2, as stated, fails on both methods.  With [lima] registered and
    nothing cached, [get_noise_model] answers with an empty model although
    the calibration data yields another one; asked for a name that is not
    registered, [create_noise_model] raises. *)
Lemma noise_model_for_not_implemented :
  noise_models Example.registry !! "IBM lima" = None /\
  noise_model_for (P := Aer.platform) "IBM lima" Example.registry
    = Example.lima_model /\
  (BackendManager.get_noise_model "IBM lima" Example.registry).1
    = Ok NoiseModel_new /\
  NoiseModel_new <> Example.lima_model /\
  noise_model_for (P := Aer.platform) "nonexistent" Example.registry
    = NoiseModel_new /\
  (BackendManager.create_noise_model (P := Aer.platform) "nonexistent"
     Example.registry).1
    = Raise (not_available "nonexistent").
Proof.
  repeat split; try reflexivity.
  intros H. apply (f_equal local_quantum_errors) in H. discriminate H.
Qed.

(** ** Construction *)

Lemma remote_entries_complete IBMQ tok hub grp prj :
  Forall (fun e => fully_registered e.1 e.2)
         (assign_all (remote_assignments IBMQ tok hub grp prj) []).
Proof.
  apply Forall_forall. intros e He. apply entries_assign_all in He.
  unfold remote_assignments in He.
  destruct (listing IBMQ tok hub grp prj) as [[bs|]|];
    try by apply elem_of_nil in He.
  pose proof (assigned_complete bs) as Hall.
  rewrite Forall_forall in Hall. by destruct (Hall e He).
Qed.

Lemma filter_no_builtin (l : Dict.t Backend) :
  Forall (fun e => fully_registered e.1 e.2) l -> List.filter is_builtin l = [].
Proof.
  induction 1 as [|[k v] l Hf _ IH]; [done |].
  destruct Hf as (b & _ & _ & Hv & _). simpl in Hv. subst v. exact IH.
Qed.

(** On the documented library the constructor raises for every
    argument: qasm is not a method of the simulator. *)
Lemma Aer_new_raises IBMQ tok hub grp prj :
  new (P := Aer.platform) IBMQ tok hub grp prj =
  Raise (AerError "Invalid simulation method qasm").
Proof. rewrite new_run. reflexivity. Qed.

(** C4. Discovery is never what makes the constructor raise: it raises
    exactly what a simulator constructor raises, and when both simulator
    constructors return it returns whatever the provider module does,
    leaving after the two built-in simulators only complete
    registrations, and none at all when discovery is not attempted or one
    of [save_account], [load_account], [get_provider] and [backends()]
    raises.  On the documented library the qasm simulator is refused, so
    the constructor raises for every outcome of discovery. *)
Theorem construction_raises_before_discovery {P : Platform}
    (IBMQ : option IBMQModule) (tok hub grp prj : option string) :
  match aer_simulator_init "statevector", aer_simulator_init "qasm" with
  | Raise e, _ => new IBMQ tok hub grp prj = Raise e
  | Ok _, Raise e => new IBMQ tok hub grp prj = Raise e
  | Ok _, Ok _ =>
      exists self remote,
        new IBMQ tok hub grp prj = Ok self /\
        backends self = (builtins ++ remote)%list /\
        Forall (fun e => fully_registered e.1 e.2) remote /\
        match listing IBMQ tok hub grp prj with
        | Some (Ok bs) =>
            Forall (fun e => exists b, b ∈ bs /\ e.2 = IBM b) remote /\
            Dict.keys remote = first_occurrences (map fst (assigned bs))
        | Some (Raise _) | None => remote = []
        end
  end /\
  new (P := Aer.platform) IBMQ tok hub grp prj =
    Raise (AerError "Invalid simulation method qasm").
Proof.
  split; [| apply Aer_new_raises].
  rewrite new_run.
  destruct (aer_simulator_init "statevector") as [[]|]; [| done].
  destruct (aer_simulator_init "qasm") as [[]|]; [| done].
  eexists _, _. split; [reflexivity |]. split; [reflexivity |].
  split; [apply remote_entries_complete |].
  unfold remote_assignments.
  destruct (listing IBMQ tok hub grp prj) as [[bs|]|]; try reflexivity.
  split; [| apply keys_assign_all].
  apply Forall_forall. intros e He. apply entries_assign_all in He.
  pose proof (assigned_complete bs) as Hall.
  rewrite Forall_forall in Hall. by destruct (Hall e He).
Qed.

(** On a library that takes both simulators, a name that cannot be read
    stops the loop; the devices entered before it stay registered. *)
Example discovery_stops_at_failure :
  new (P := Example.patched)
      (Some (Example.ibmq [Example.lima; Example.broken; Example.lima]))
      (Some "token") None None None
  = Ok Example.registry.
Proof. reflexivity. Qed.

(** C5. The sampling simulator is never built: qasm is not among the
    methods of the simulator, its constructor raises, and so does the
    constructor of the registry, for every argument.  Only on a library
    that takes both method names does the constructor return, and then
    the simulators in the registry are exactly the statevector simulator
    under "Aer (statevector)" and the qasm simulator under "Aer (qasm)". *)
Theorem qasm_simulator_rejected :
  ("qasm" ∉ Aer.available_methods) /\
  aer_simulator_init (Platform := Aer.platform) "statevector" = Ok tt /\
  aer_simulator_init (Platform := Aer.platform) "qasm"
    = Raise (AerError "Invalid simulation method qasm") /\
  (forall IBMQ tok hub grp prj,
     new (P := Aer.platform) IBMQ tok hub grp prj
     = Raise (AerError "Invalid simulation method qasm")) /\
  (forall (P : Platform) IBMQ tok hub grp prj,
     match new IBMQ tok hub grp prj with
     | Ok self =>
         List.filter is_builtin (backends self) =
           [("Aer (statevector)", AerSimulator "statevector");
            ("Aer (qasm)", AerSimulator "qasm")] /\
         aer_simulator_init "statevector" = Ok tt /\
         aer_simulator_init "qasm" = Ok tt
     | Raise e =>
         aer_simulator_init "statevector" = Raise e \/
         aer_simulator_init "qasm" = Raise e
     end).
Proof.
  split; [compute_done |]. split; [reflexivity |]. split; [reflexivity |].
  split; [apply Aer_new_raises |].
  intros P IBMQ tok hub grp prj. rewrite new_run.
  destruct (aer_simulator_init "statevector") as [[]|]; [| by left].
  destruct (aer_simulator_init "qasm") as [[]|]; [| by right].
  simpl. by rewrite filter_no_builtin by apply remote_entries_complete.
Qed.


(** C8. From construction on, through any sequence of method calls,
    [list_backends] returns the two built-in names first and then the
    remote names in the order in which the loop first assigned them; the
    list has no repetition and holds exactly the registered names. *)
Theorem list_backends_order {P : Platform} (IBMQ : option IBMQModule)
    (tok hub grp prj : option string) (self0 self : BackendManager) :
  new IBMQ tok hub grp prj = Ok self0 ->
  lifetime self0 self ->
  exists names,
    BackendManager.list_backends self = (Ok names, self) /\
    names = ("Aer (statevector)" :: "Aer (qasm)"
             :: first_occurrences (remote_keys IBMQ tok hub grp prj)) /\
    NoDup names /\
    forall name, name ∈ names <-> is_Some (Dict.get name (backends self)).
Proof.
  intros Hnew Hlife. apply lifetime_backends in Hlife.
  apply new_ok in Hnew as ->. simpl in Hlife.
  assert (Hkeys : Dict.keys (backends self) =
            "Aer (statevector)" :: "Aer (qasm)"
            :: first_occurrences (remote_keys IBMQ tok hub grp prj)).
  { rewrite Hlife. unfold Dict.keys. simpl. do 2 f_equal.
    apply keys_assign_all. }
  eexists. split; [reflexivity |]. split; [exact Hkeys |]. split.
  - rewrite Hkeys.
    pose proof (remote_assignments_not_builtin IBMQ tok hub grp prj) as Hnb.
    rewrite Forall_forall in Hnb.
    assert (Hout : forall k,
              k ∈ Dict.keys builtins ->
              k ∉ first_occurrences (remote_keys IBMQ tok hub grp prj)).
    { intros k Hk Hin. rewrite elem_of_first_occurrences in Hin.
      unfold remote_keys in Hin.
      apply list_elem_of_In, in_map_iff in Hin as (e & <- & He).
      apply list_elem_of_In in He. by apply (Hnb e He). }
    constructor; [| constructor; [| apply NoDup_first_occurrences]].
    + rewrite not_elem_of_cons. split; [done |].
      apply Hout. by left.
    + apply Hout. right. by left.
  - intros name. rewrite <- DictFacts.contains_get, DictFacts.contains_keys.
    done.
Qed.

Lemma list_backends_order_witness :
  BackendManager.list_backends
    (after (P := Example.patched) (create_noise_model_call "IBM lima")
       (after (P := Example.patched) (set_backend_call "Aer (qasm)")
          Example.registry)) =
  (Ok ["Aer (statevector)"; "Aer (qasm)"; "IBM lima"],
   after (P := Example.patched) (create_noise_model_call "IBM lima")
     (after (P := Example.patched) (set_backend_call "Aer (qasm)")
        Example.registry)).
Proof.
  destruct (list_backends_order (P := Example.patched)
              (Some (Example.ibmq [Example.lima])) (Some "token")
              None None None Example.registry
              (after (P := Example.patched) (create_noise_model_call "IBM lima")
                 (after (P := Example.patched) (set_backend_call "Aer (qasm)")
                    Example.registry)))
    as (names & Hrun & -> & _).
  - reflexivity.
  - apply lifetime_call, lifetime_call, lifetime_new.
  - exact Hrun.
Defined.

(** The names a constructed registry knows are the two built-in names
    and names that start with "IBM ". *)
Lemma registered_name_shape {P : Platform} IBMQ tok hub grp prj
    (self0 : BackendManager)
    (name : string) :
  new IBMQ tok hub grp prj = Ok self0 ->
  is_Some (Dict.get name (backends self0)) ->
  name = "Aer (statevector)" \/ name = "Aer (qasm)" \/
  exists n, name = "IBM " ++ n.
Proof.
  intros Hnew Hsome. apply new_ok in Hnew as ->. simpl in Hsome.
  repeat (case_decide; [tauto |]).
  right. right.
  apply DictFacts.contains_get, DictFacts.contains_keys in Hsome.
  unfold Dict.keys in Hsome.
  apply list_elem_of_In, in_map_iff in Hsome as ([k v] & <- & Hin).
  apply list_elem_of_In in Hin.
  pose proof (remote_entries_complete IBMQ tok hub grp prj) as Hall.
  rewrite Forall_forall in Hall.
  destruct (Hall _ Hin) as (_ & _ & n & _ & _ & _ & _ & Hk). by exists n.
Qed.

(** The scenario of the design document: on a constructed registry,
    whatever has been called on it since, selecting "nonexistent" raises
    and changes nothing. *)
Lemma select_nonexistent {P : Platform} IBMQ tok hub grp prj
    (self0 self : BackendManager) :
  new IBMQ tok hub grp prj = Ok self0 ->
  lifetime self0 self ->
  BackendManager.set_backend "nonexistent" self =
    (Raise (not_available "nonexistent"), self).
Proof.
  intros Hnew Hlife. rewrite set_backend_run.
  rewrite (lifetime_backends _ _ Hlife).
  destruct (Dict.get "nonexistent" (backends self0)) as [b|] eqn:Hget;
    [| done].
  destruct (registered_name_shape _ _ _ _ _ _ "nonexistent" Hnew)
    as [H|[H|[n H]]]; [by eexists | discriminate H ..].
Qed.

(** * Synthetic noise *)

(** What [add_error], run over a list that names no instruction twice,
    leaves on an empty table. *)
Lemma lookup_added (err : QuantumError) (gs : list string) (g : string) :
  NoDup gs ->
  foldl (add_error err) ∅ gs !! g =
  if bool_decide (g ∈ gs) then Some err else None.
Proof.
  intros Hnd.
  assert (Hfold : forall m : gmap string QuantumError,
            (forall g', g' ∈ gs -> m !! g' = None) ->
            foldl (add_error err) m gs !! g =
            if bool_decide (g ∈ gs) then Some err else m !! g).
  { induction Hnd as [|g' gs Hnotin _ IH]; intros m Hfresh; simpl; [done |].
    unfold add_error at 2. rewrite (Hfresh g') by left.
    rewrite IH.
    - destruct (decide (g = g')) as [->|Hne].
      + rewrite lookup_insert_eq, (bool_decide_eq_true_2 (g' ∈ g' :: gs));
          [| by left].
        by rewrite bool_decide_eq_false_2.
      + rewrite lookup_insert_ne by done.
        destruct (bool_decide (g ∈ gs)) eqn:Hin.
        * apply bool_decide_eq_true_1 in Hin.
          rewrite bool_decide_eq_true_2; [done | by right].
        * apply bool_decide_eq_false_1 in Hin.
          rewrite bool_decide_eq_false_2; [done |].
          rewrite elem_of_cons. tauto.
    - intros g0 Hg0. rewrite lookup_insert_ne.
      + apply Hfresh. by right.
      + intros ->. done. }
  rewrite Hfold; [by destruct (bool_decide (g ∈ gs)) | done].
Qed.

(** When every listed instruction takes an error on as many qubits as
    [err] has, no check fails. *)
Lemma add_errors_checked {P : Platform} (err : QuantumError)
    (gs : list string) (m : gmap string QuantumError) :
  Forall (fun g => instruction_qubits g = Some (error_num_qubits err)) gs ->
  add_errors err gs m = Ok (foldl (add_error err) m gs).
Proof.
  intros Hall. revert m.
  induction Hall as [|g gs Hg _ IH]; intros m; [done |].
  cbn [add_errors foldl]. unfold check_number_of_qubits. rewrite Hg.
  rewrite decide_True by done. apply IH.
Qed.

Lemma add_all_checked {P : Platform} (err : QuantumError)
    (gs : list string) :
  Forall (fun g => instruction_qubits g = Some (error_num_qubits err)) gs ->
  add_all_qubit_quantum_error err gs NoiseModel_new =
  Ok (if error_ideal err then NoiseModel_new
      else {| default_quantum_errors := foldl (add_error err) ∅ gs;
              local_quantum_errors := [] |}).
Proof.
  intros Hall. unfold add_all_qubit_quantum_error.
  destruct (error_ideal err); [done |].
  cbn [default_quantum_errors local_quantum_errors NoiseModel_new].
  by rewrite add_errors_checked.
Qed.

(** An error that is not ideal and acts on another number of qubits than
    the first listed instruction is refused. *)
Lemma add_all_refused {P : Platform} (err : QuantumError) (g : string)
    (gs : list string) (k : Z) (nm : NoiseModel) :
  instruction_qubits g = Some k ->
  error_num_qubits err <> k ->
  add_all_qubit_quantum_error err (g :: gs) nm =
  if error_ideal err then Ok nm
  else Raise (NoiseError
                ("QuantumError cannot be applied to instruction " ++ g)).
Proof.
  intros Hg Hk. unfold add_all_qubit_quantum_error.
  destruct (error_ideal err); [done |].
  cbn [add_errors]. unfold check_number_of_qubits. rewrite Hg.
  by rewrite decide_False by done.
Qed.

Lemma sample_depolarizing_run {P : Platform} (p : Q) :
  BackendManager.sample_depolarizing p =
  match depolarizing_error p 1 with
  | Ok err =>
      add_all_qubit_quantum_error err ["u1"; "u2"; "u3"] NoiseModel_new
  | Raise e => Raise e
  end.
Proof. reflexivity. Qed.

Lemma sample_pauli_run {P : Platform} (p : Q) :
  BackendManager.sample_pauli p =
  match pauli_error [("X", p); ("I", Binary64.sub 1 p)] with
  | Ok err => add_all_qubit_quantum_error err ["cx"] NoiseModel_new
  | Raise e => Raise e
  end.
Proof. reflexivity. Qed.

(** ** Rounding *)

Lemma Qle_bool_false (a b : Q) : Qle_bool a b = false <-> (b < a)%Q.
Proof.
  destruct (Qle_bool a b) eqn:Hle; split; intros H; try done.
  - apply Qle_bool_iff in Hle. lra.
  - apply Qnot_le_lt. intros Hab. apply Qle_bool_iff in Hab. congruence.
Qed.

Lemma nearest_even_error (m : Q) :
  (Qabs (inject_Z (Binary64.nearest_even m) - m) <= 1 # 2)%Q.
Proof.
  unfold Binary64.nearest_even.
  pose proof (Qfloor_le m) as Hlo.
  pose proof (Qlt_floor m) as Hhi.
  rewrite inject_Z_plus in Hhi. change (inject_Z 1) with 1%Q in Hhi.
  destruct (Qcompare_spec (m - inject_Z (Qfloor m)) (1 # 2)) as [He|Hl|Hg];
    [destruct (Z.even (Qfloor m)) | |];
    rewrite ?inject_Z_plus; change (inject_Z 1) with 1%Q;
    apply Qabs_Qle_condition; split; lra.
Qed.

Lemma pow2_pos (k : Z) : (0 < 2 ^ k)%Q.
Proof. apply Qpower_0_lt. reflexivity. Qed.

Lemma pow2_inv (k : Z) : (2 ^ (- k) * 2 ^ k == 1)%Q.
Proof.
  rewrite <- Qpower_plus by discriminate.
  replace (- k + k)%Z with 0%Z by lia. reflexivity.
Qed.

(** The significand has 53 bits. *)
Lemma exponent_normal (x : Q) :
  ~ (x == 0)%Q ->
  (2 ^ 52 <= Qabs x * 2 ^ (- Binary64.exponent x))%Q /\
  (Qabs x * 2 ^ (- Binary64.exponent x) < 2 ^ 53)%Q.
Proof.
  intros Hx. unfold Binary64.exponent.
  set (a := Z.log2 (Z.abs (Qnum x))).
  set (b := Z.log2 (Z.pos (Qden x))).
  assert (HA : (0 < Z.abs (Qnum x))%Z).
  { destruct x as [n d]. unfold Qeq in Hx. cbn [Qnum Qden] in *. lia. }
  destruct (Z.log2_spec _ HA) as [Ha Ha']. fold a in Ha, Ha'.
  destruct (Z.log2_spec (Z.pos (Qden x)) eq_refl) as [Hb' Hb].
  fold b in Hb, Hb'.
  assert (Ha0 : (0 <= a)%Z) by apply Z.log2_nonneg.
  assert (Hb0 : (0 <= b)%Z) by apply Z.log2_nonneg.
  assert (Hpos : forall n, (0 <= n)%Z -> (0 < inject_Z (2 ^ n))%Q).
  { intros n Hn. change 0%Q with (inject_Z 0). rewrite <- Zlt_Qlt.
    apply Z.pow_pos_nonneg; lia. }
  destruct (Qle_bool (2 ^ 52) (Qabs x * 2 ^ (- (a - b - 52)))) eqn:Hle.
  - split; [apply Qle_bool_iff; exact Hle |]. clear Hle.
    replace (- (a - b - 52))%Z with (b + (- Z.succ a) + 53)%Z by lia.
    rewrite !Qpower_plus by discriminate.
    rewrite Qpower_opp.
    rewrite <- (Zpower_Qpower 2 b) by lia.
    rewrite <- (Zpower_Qpower 2 (Z.succ a)) by lia.
    set (PB := (2 ^ b)%Z) in *. set (PA := (2 ^ Z.succ a)%Z) in *.
    assert (Hfrac : (Qabs x * inject_Z PB / inject_Z PA < 1)%Q).
    { apply Qlt_shift_div_r; [apply Hpos; lia |].
      destruct x as [n d]. unfold Qlt, Qabs, Qmult, inject_Z in *.
      cbn [Qnum Qden] in *.
      rewrite Z.mul_1_l, Z.mul_1_r, Pos.mul_1_r. nia. }
    unfold Qdiv in Hfrac.
    set (F := (Qabs x * inject_Z PB * / inject_Z PA)%Q) in *.
    assert (Heq : (Qabs x * (inject_Z PB * / inject_Z PA * 2 ^ 53)
                   == F * 2 ^ 53)%Q) by (unfold F; ring).
    rewrite Heq.
    apply Qlt_le_trans with (1 * 2 ^ 53)%Q.
    + apply Qmult_lt_compat_r; [apply pow2_pos | exact Hfrac].
    + rewrite Qmult_1_l. apply Qle_refl.
  - apply Qle_bool_false in Hle. split.
    + clear Hle.
      replace (- (a - b - 52 - 1))%Z with (Z.succ b + (- a) + 52)%Z by lia.
      rewrite !Qpower_plus by discriminate.
      rewrite Qpower_opp.
      rewrite <- (Zpower_Qpower 2 (Z.succ b)) by lia.
      rewrite <- (Zpower_Qpower 2 a) by lia.
      set (PB := (2 ^ Z.succ b)%Z) in *. set (PA := (2 ^ a)%Z) in *.
      assert (Hfrac : (1 <= Qabs x * inject_Z PB / inject_Z PA)%Q).
      { apply Qle_shift_div_l; [apply Hpos; lia |].
        destruct x as [n d]. unfold Qle, Qabs, Qmult, inject_Z in *.
        cbn [Qnum Qden] in *.
        rewrite Z.mul_1_l, Z.mul_1_r, Pos.mul_1_r. nia. }
      unfold Qdiv in Hfrac.
      set (F := (Qabs x * inject_Z PB * / inject_Z PA)%Q) in *.
      assert (Heq : (Qabs x * (inject_Z PB * / inject_Z PA * 2 ^ 52)
                     == F * 2 ^ 52)%Q) by (unfold F; ring).
      rewrite Heq.
      apply Qle_trans with (1 * 2 ^ 52)%Q.
      * rewrite Qmult_1_l. apply Qle_refl.
      * apply Qmult_le_compat_r; [exact Hfrac |].
        apply Qlt_le_weak, pow2_pos.
    + replace (- (a - b - 52 - 1))%Z with (- (a - b - 52) + 1)%Z by lia.
      rewrite Qpower_plus by discriminate.
      set (m0 := (Qabs x * 2 ^ (- (a - b - 52)))%Q) in *.
      assert (Heq : (Qabs x * (2 ^ (- (a - b - 52)) * 2 ^ 1) == m0 * 2)%Q)
        by (unfold m0; ring).
      rewrite Heq.
      change (2 ^ 53)%Q with (9007199254740992 # 1).
      change (2 ^ 52)%Q with (4503599627370496 # 1) in Hle. lra.
Qed.

(** Rounding to nearest loses at most one unit roundoff, relatively. *)
Lemma round_error (x : Q) :
  (Qabs (Binary64.round x - x) <= unit_roundoff * Qabs x)%Q.
Proof.
  unfold Binary64.round.
  destruct (Qeq_bool x 0) eqn:Hz.
  - apply Qeq_bool_iff in Hz. rewrite Hz. discriminate.
  - apply Qeq_bool_neq in Hz.
    set (e := Binary64.exponent x).
    set (m := (x * 2 ^ (- e))%Q).
    pose proof (nearest_even_error m) as Hr.
    destruct (exponent_normal x Hz) as [Hm _]. fold e in Hm.
    pose proof (pow2_pos e) as Hs.
    pose proof (pow2_pos (- e)) as Hs'.
    pose proof (pow2_inv e) as Hinv.
    set (r := inject_Z (Binary64.nearest_even m)) in *.
    assert (Hx : (x == m * 2 ^ e)%Q).
    { unfold m. rewrite <- Qmult_assoc, Hinv. ring. }
    assert (Hd : (r * 2 ^ e - x == (r - m) * 2 ^ e)%Q).
    { rewrite Hx at 1. ring. }
    rewrite Hd, Qabs_Qmult, (Qabs_pos (2 ^ e)) by lra.
    assert (Hax : (Qabs x == Qabs m * 2 ^ e)%Q).
    { rewrite Hx at 1. rewrite Qabs_Qmult, (Qabs_pos (2 ^ e)) by lra.
      reflexivity. }
    assert (Ham : (2 ^ 52 <= Qabs m)%Q).
    { unfold m. rewrite Qabs_Qmult, (Qabs_pos (2 ^ (- e))) by lra.
      exact Hm. }
    rewrite Hax.
    change (2 ^ 52)%Q with (4503599627370496 # 1) in Ham.
    unfold unit_roundoff.
    set (E := Qabs (r - m)) in *. set (M := Qabs m) in *.
    set (s := (2 ^ e)%Q) in *.
    apply Qle_trans with ((1 # 2) * s)%Q.
    + apply Qmult_le_compat_r; lra.
    + rewrite Qmult_assoc. apply Qmult_le_compat_r; lra.
Qed.

(** The rounding agrees with Python on 0.1 and on [1 - 0.1]. *)
Example round_one_tenth :
  Qred (Binary64.round (1 # 10)) = 3602879701896397 # 36028797018963968.
Proof. vm_compute. reflexivity. Qed.

Example sub_one_tenth :
  Qred (Binary64.sub 1 (3602879701896397 # 36028797018963968))
  = 8106479329266893 # 9007199254740992.
Proof. vm_compute. reflexivity. Qed.

Lemma sub_one_error (p : Q) :
  (Qabs (Binary64.sub 1 p - (1 - p)) <= unit_roundoff * Qabs (1 - p))%Q.
Proof. apply round_error. Qed.

(** ** The documented library at the ends of the range *)

(** At [p = 0] either channel is ideal and nothing is attached. *)
Example sample_depolarizing_zero :
  BackendManager.sample_depolarizing (P := Aer.platform) 0 = Ok NoiseModel_new.
Proof. vm_compute. reflexivity. Qed.

Example sample_pauli_zero :
  BackendManager.sample_pauli (P := Aer.platform) 0 = Ok NoiseModel_new.
Proof. vm_compute. reflexivity. Qed.

Example sample_pauli_one :
  BackendManager.sample_pauli (P := Aer.platform) 1 =
  Raise (NoiseError "QuantumError cannot be applied to instruction cx").
Proof. vm_compute. reflexivity. Qed.

(** Every [p] of [0,1] is a depolarizing parameter for one qubit. *)
Lemma Aer_depolarizing_error_unit (p : Q) :
  (0 <= p)%Q -> (p <= 1)%Q ->
  Aer.depolarizing_error p 1 = Ok (Depolarizing p 1).
Proof.
  intros H0 H1. unfold Aer.depolarizing_error, Aer.Qltb.
  change (1 <? 1)%Z with false. cbv iota.
  change (inject_Z (4 ^ 1) / inject_Z (4 ^ 1 - 1))%Q with (4 # 3).
  assert (Hlo : Qle_bool 0 p = true) by (apply Qle_bool_iff; lra).
  assert (Hhi : Qle_bool p (4 # 3) = true) by (apply Qle_bool_iff; lra).
  by rewrite Hlo, Hhi.
Qed.

Lemma Aer_sample_depolarizing_unit (p : Q) :
  (0 <= p)%Q -> (p <= 1)%Q ->
  is_ok (BackendManager.sample_depolarizing (P := Aer.platform) p) = true.
Proof.
  intros H0 H1. rewrite sample_depolarizing_run.
  cbn [depolarizing_error Aer.platform].
  rewrite Aer_depolarizing_error_unit by done.
  rewrite add_all_checked; [done |]. repeat constructor.
Qed.

(** ** Range of the probability *)

(** C3, as the code has it.  Neither constructor checks [p]: a call
    passes on what the channel constructor of the library raises, and
    [sample_depolarizing] returns a model for every [p] that
    [depolarizing_error] takes, u1, u2 and u3 being one-qubit
    instructions and the channel a one-qubit error.  With the documented
    library that is so for every [p] in [0,1]. *)
Theorem synthetic_noise_checks {P : Platform} (p : Q) :
  (forall err, depolarizing_error p 1 = Ok err ->
               error_num_qubits err = 1%Z) ->
  Forall (fun g => instruction_qubits g = Some 1%Z) ["u1"; "u2"; "u3"] ->
  match depolarizing_error p 1 with
  | Ok _ => is_ok (BackendManager.sample_depolarizing p) = true
  | Raise e => BackendManager.sample_depolarizing p = Raise e
  end /\
  (forall e, pauli_error [("X", p); ("I", Binary64.sub 1 p)] = Raise e ->
             BackendManager.sample_pauli p = Raise e) /\
  (forall q : Q,
     (0 <= q)%Q -> (q <= 1)%Q ->
     is_ok (BackendManager.sample_depolarizing (P := Aer.platform) q) = true).
Proof.
  intros Hone Hgates. split; [| split].
  - rewrite sample_depolarizing_run.
    destruct (depolarizing_error p 1) as [err|e]; [| done].
    rewrite add_all_checked; [done |].
    by rewrite (Hone err eq_refl).
  - intros e He. by rewrite sample_pauli_run, He.
  - apply Aer_sample_depolarizing_unit.
Qed.

Lemma synthetic_noise_checks_witness :
  match Aer.depolarizing_error (5 # 4) 1 with
  | Ok _ =>
      is_ok (BackendManager.sample_depolarizing (P := Aer.platform) (5 # 4))
      = true
  | Raise e =>
      BackendManager.sample_depolarizing (P := Aer.platform) (5 # 4) = Raise e
  end /\
  (forall e,
     Aer.pauli_error [("X", 5 # 4); ("I", Binary64.sub 1 (5 # 4))] = Raise e ->
     BackendManager.sample_pauli (P := Aer.platform) (5 # 4) = Raise e) /\
  (forall q : Q,
     (0 <= q)%Q -> (q <= 1)%Q ->
     is_ok (BackendManager.sample_depolarizing (P := Aer.platform) q) = true).
Proof.
  apply (synthetic_noise_checks (P := Aer.platform) (5 # 4)).
  - intros err Herr. vm_compute in Herr. injection Herr as <-. reflexivity.
  - repeat constructor.
Defined.

(** C3, as stated, fails: 5/4 lies outside [0,1], and
    [sample_depolarizing] returns a model for it, with the channel of
    parameter 5/4 on u1. *)
Lemma sample_depolarizing_accepts_above_one :
  ~ ((0 <= 5 # 4)%Q /\ (5 # 4 <= 1)%Q) /\
  exists nm,
    BackendManager.sample_depolarizing (P := Aer.platform) (5 # 4) = Ok nm /\
    channel_of nm "u1" = Some (Depolarizing (5 # 4) 1).
Proof.
  split.
  - intros [_ H]. by apply Qle_bool_iff in H.
  - eexists. split; [vm_compute; reflexivity |]. vm_compute. reflexivity.
Qed.

(** ** The depolarizing model *)

(** C6, as the code has it.  For a probability the library takes, so
    for every [p] in [0,1] with the documented checks, the model carries
    the one-qubit depolarizing channel on all qubits for exactly the
    gates u1, u2 and u3, whatever the native gate set of a backend, and
    no other error; when the channel is ideal, as it is for [p = 0], the
    model carries nothing at all. *)
Theorem sample_depolarizing_channels {P : Platform} (p : Q)
    (err : QuantumError) :
  depolarizing_error p 1 = Ok err ->
  error_num_qubits err = 1%Z ->
  Forall (fun g => instruction_qubits g = Some 1%Z) ["u1"; "u2"; "u3"] ->
  exists nm,
    BackendManager.sample_depolarizing p = Ok nm /\
    (forall g, channel_of nm g =
               if error_ideal err then None
               else if bool_decide (g ∈ ["u1"; "u2"; "u3"])
                    then Some err else None) /\
    local_quantum_errors nm = [] /\
    (forall q : Q,
       (0 <= q)%Q -> (q <= 1)%Q ->
       Aer.depolarizing_error q 1 = Ok (Depolarizing q 1)).
Proof.
  intros Herr Hone Hgates.
  rewrite sample_depolarizing_run, Herr, add_all_checked
    by (by rewrite Hone).
  eexists. split; [reflexivity |].
  split; [| split; [by destruct (error_ideal err) |
                    apply Aer_depolarizing_error_unit]].
  destruct (error_ideal err); [done |].
  intros g. apply lookup_added. compute_done.
Qed.

Lemma sample_depolarizing_channels_witness :
  exists nm,
    BackendManager.sample_depolarizing (P := Aer.platform) (1 # 4) = Ok nm /\
    (forall g, channel_of nm g =
               if error_ideal (Platform := Aer.platform)
                    (Depolarizing (1 # 4) 1)
               then None
               else if bool_decide (g ∈ ["u1"; "u2"; "u3"])
                    then Some (Depolarizing (1 # 4) 1) else None) /\
    local_quantum_errors nm = [] /\
    (forall q : Q,
       (0 <= q)%Q -> (q <= 1)%Q ->
       Aer.depolarizing_error q 1 = Ok (Depolarizing q 1)).
Proof.
  apply (sample_depolarizing_channels (P := Aer.platform) (1 # 4)
           (Depolarizing (1 # 4) 1)).
  - reflexivity.
  - reflexivity.
  - repeat constructor.
Defined.

(** C6, as stated, fails.  The Hadamard gate of the two-qubit sample
    circuit acts on one qubit and belongs to the native gate set, and the
    model returned for p = 1/4 has no channel for it; nor has it one for
    any native gate of the device [lima]. *)
Lemma sample_depolarizing_skips_hadamard :
  exists nm h cfg,
    (0 <= 1 # 4)%Q /\ (1 # 4 <= 1)%Q /\
    BackendManager.sample_depolarizing (P := Aer.platform) (1 # 4) = Ok nm /\
    h ∈ sample_circuit 2 /\
    length (qargs h) = 1%nat /\
    gate h ∈ basis_gates Example.native /\
    channel_of nm (gate h) = None /\
    ibm_configuration Example.lima = Ok cfg /\
    Forall (fun g => channel_of nm g = None) (basis_gates cfg).
Proof.
  eexists _, {| gate := "h"; qargs := [0%nat] |}, _.
  split; [by apply Qle_bool_iff |]. split; [by apply Qle_bool_iff |].
  split; [vm_compute; reflexivity |]. split; [by left |].
  split; [reflexivity |].
  split; [simpl; do 6 right; by left |].
  split; [vm_compute; reflexivity |].
  split; [reflexivity |].
  repeat constructor; vm_compute; reflexivity.
Qed.

(** ** The bit-flip model *)

(** C7. For every [p] in [0,1] the terms handed to [pauli_error] are X
    with weight [p] and I with weight [1 - p] as the float subtraction
    yields it; both weights are non-negative and their sum is within one
    unit roundoff, so within the tolerance, of 1.  The channel built from
    these one-letter labels acts on one qubit and cx on two, so the
    channel is never attached to cx: the call raises the [NoiseError] of
    the noise model, or returns the empty model when the channel is
    ideal, or passes on what [pauli_error] raised. *)
Theorem sample_pauli_never_on_cx {P : Platform} (p : Q) :
  (0 <= p)%Q -> (p <= 1)%Q ->
  (forall err, pauli_error [("X", p); ("I", Binary64.sub 1 p)] = Ok err ->
               error_num_qubits err = 1%Z) ->
  instruction_qubits "cx" = Some 2%Z ->
  exists w,
    w = Binary64.sub 1 p /\
    (0 <= w)%Q /\
    (Qabs (total_weight [("X", p); ("I", w)] - 1) <= unit_roundoff)%Q /\
    (unit_roundoff <= tolerance)%Q /\
    BackendManager.sample_pauli p =
      match pauli_error [("X", p); ("I", w)] with
      | Ok err =>
          if error_ideal err then Ok NoiseModel_new
          else Raise (NoiseError
                        "QuantumError cannot be applied to instruction cx")
      | Raise e => Raise e
      end /\
    (forall nm, BackendManager.sample_pauli p = Ok nm ->
                nm = NoiseModel_new).
Proof.
  intros H0 H1 Hone Hcx.
  pose proof (sub_one_error p) as Hw.
  rewrite (Qabs_pos (1 - p)) in Hw by lra.
  apply Qabs_Qle_condition in Hw as [Hlo Hhi].
  unfold unit_roundoff in Hlo, Hhi.
  set (w := Binary64.sub 1 p) in *.
  exists w. split; [done |]. split; [lra |]. split.
  { unfold total_weight, unit_roundoff. cbn [foldr map snd].
    apply Qabs_Qle_condition. split; lra. }
  split; [done |].
  assert (Hrun : BackendManager.sample_pauli p =
                 match pauli_error [("X", p); ("I", w)] with
                 | Ok err =>
                     if error_ideal err then Ok NoiseModel_new
                     else Raise (NoiseError
                            "QuantumError cannot be applied to instruction cx")
                 | Raise e => Raise e
                 end).
  { rewrite sample_pauli_run. fold w.
    destruct (pauli_error [("X", p); ("I", w)]) as [err|e] eqn:Herr;
      [| done].
    rewrite (add_all_refused err "cx" [] 2 NoiseModel_new Hcx); [done |].
    rewrite (Hone err eq_refl). done. }
  split; [exact Hrun |].
  intros nm Hnm. rewrite Hrun in Hnm.
  destruct (pauli_error [("X", p); ("I", w)]) as [err|e]; [| done].
  destruct (error_ideal err); [| done]. by injection Hnm.
Qed.

Lemma sample_pauli_never_on_cx_witness :
  BackendManager.sample_pauli (P := Aer.platform) (1 # 4) =
  Raise (NoiseError "QuantumError cannot be applied to instruction cx").
Proof.
  destruct (sample_pauli_never_on_cx (P := Aer.platform) (1 # 4))
    as (w & -> & _ & _ & _ & Hrun & _).
  - apply Qle_bool_iff. reflexivity.
  - apply Qle_bool_iff. reflexivity.
  - intros err Herr. vm_compute in Herr. injection Herr as <-. reflexivity.
  - reflexivity.
  - rewrite Hrun. vm_compute. reflexivity.
Defined.

(** * Further properties of the registry *)

(** What each call leaves behind. *)
Lemma after_spec {P : Platform} (c : call) (self : BackendManager) :
  after c self =
  match c with
  | set_backend_call name =>
      match Dict.get name (backends self) with
      | Some b => set_active_backend b self
      | None => self
      end
  | create_noise_model_call n =>
      match Dict.get n (backends self) with
      | Some backend =>
          set_noise_models (<[n := derived_model backend]>) self
      | None => self
      end
  | _ => self
  end.
Proof.
  destruct c as [|name| |n|n]; simpl.
  - reflexivity.
  - rewrite set_backend_run.
    by destruct (Dict.get name (backends self)).
  - unfold BackendManager.get_backend. run.
    by destruct (active_backend self).
  - rewrite create_noise_model_run.
    by destruct (Dict.get n (backends self)).
  - reflexivity.
Qed.

Lemma after_all_backends {P : Platform} (cs : list call)
    (self : BackendManager) :
  backends (after_all cs self) = backends self.
Proof.
  revert self. induction cs as [|c cs IH]; intros self; [done |].
  change (after_all (c :: cs) self) with (after_all cs (after c self)).
  rewrite IH. apply after_backends.
Qed.

(** X1. On a constructed registry, whatever has been called on it, the
    active backend is the backend registered under some name, and
    [get_backend] returns it without raising. *)
Theorem active_backend_registered {P : Platform} (IBMQ : option IBMQModule)
    (tok hub grp prj : option string) (self0 self : BackendManager) :
  new IBMQ tok hub grp prj = Ok self0 ->
  lifetime self0 self ->
  exists name b,
    Dict.get name (backends self) = Some b /\
    active_backend self = Some b /\
    BackendManager.get_backend self = (Ok b, self).
Proof.
  intros Hnew Hlife.
  induction Hlife as [|c self Hlife (name & b & Hget & Hact & Hrun)].
  - apply new_ok in Hnew as ->.
    by exists "Aer (statevector)", (AerSimulator "statevector").
  - rewrite after_spec.
    destruct c as [|name'| |n|n]; try by exists name, b.
    + destruct (Dict.get name' (backends self)) as [b'|] eqn:Hget';
        [| by exists name, b].
      by exists name', b'.
    + destruct (Dict.get n (backends self)) as [backend|];
        [| by exists name, b].
      exists name, b. split; [done |]. split; [done |].
      unfold BackendManager.get_backend. run. by rewrite Hact.
Qed.

Lemma active_backend_registered_witness :
  exists name b,
    Dict.get name
      (backends (after (P := Example.patched) (set_backend_call "IBM lima")
                   Example.registry)) = Some b /\
    active_backend (after (P := Example.patched) (set_backend_call "IBM lima")
                      Example.registry) = Some b /\
    BackendManager.get_backend
      (after (P := Example.patched) (set_backend_call "IBM lima")
         Example.registry)
    = (Ok b, after (P := Example.patched) (set_backend_call "IBM lima")
               Example.registry).
Proof.
  apply (active_backend_registered (P := Example.patched)
           (Some (Example.ibmq [Example.lima])) (Some "token")
           None None None Example.registry).
  - reflexivity.
  - apply lifetime_call, lifetime_new.
Defined.

(** X2. On a constructed registry, whatever has been called on it, the
    cache holds models for registered names only, and the model cached
    for a name is the one derived from the properties of the backend of
    that name, or the empty model when the derivation raised. *)
Theorem noise_cache_of_registered {P : Platform} (IBMQ : option IBMQModule)
    (tok hub grp prj : option string) (self0 self : BackendManager)
    (name : string) (nm : NoiseModel) :
  new IBMQ tok hub grp prj = Ok self0 ->
  lifetime self0 self ->
  noise_models self !! name = Some nm ->
  exists backend,
    Dict.get name (backends self) = Some backend /\
    nm = derived_model backend.
Proof.
  intros Hnew Hlife. revert name nm.
  induction Hlife as [|c self Hlife IH]; intros name nm Hnm.
  - apply new_ok in Hnew as ->. simpl in Hnm.
    by rewrite lookup_empty in Hnm.
  - rewrite after_backends. rewrite after_spec in Hnm.
    destruct c as [|name'| |n|n]; try by apply IH.
    + destruct (Dict.get name' (backends self)); by apply IH.
    + destruct (Dict.get n (backends self)) as [backend|] eqn:Hget;
        [| by apply IH].
      simpl in Hnm. destruct (decide (n = name)) as [->|Hne].
      * rewrite lookup_insert_eq in Hnm. injection Hnm as <-.
        by exists backend.
      * rewrite lookup_insert_ne in Hnm by done. by apply IH.
Qed.

Lemma noise_cache_of_registered_witness :
  exists backend,
    Dict.get "IBM lima"
      (backends (after (P := Example.patched)
                   (create_noise_model_call "IBM lima") Example.registry))
    = Some backend /\
    Example.lima_model = derived_model (P := Example.patched) backend.
Proof.
  apply (noise_cache_of_registered (P := Example.patched)
           (Some (Example.ibmq [Example.lima])) (Some "token")
           None None None Example.registry).
  - reflexivity.
  - apply lifetime_call, lifetime_new.
  - reflexivity.
Defined.

(** X3. After any sequence of calls the active backend is the backend of
    the last [set_backend] whose name is registered; a [set_backend] that
    raises, and every other call, leaves it as it was. *)
Theorem active_backend_after_calls {P : Platform} (cs : list call)
    (self : BackendManager) :
  active_backend (after_all cs self) =
  last_selected (backends self) cs (active_backend self).
Proof.
  revert self. induction cs as [|c cs IH]; intros self; [done |].
  change (after_all (c :: cs) self) with (after_all cs (after c self)).
  rewrite IH, after_backends, after_spec.
  destruct c as [|name| |n|n]; simpl; try reflexivity.
  - by destruct (Dict.get name (backends self)).
  - by destruct (Dict.get n (backends self)).
Qed.

(** X4. After any sequence of calls the model cached for a name is the
    one of the last [create_noise_model] for that name, provided the name
    is registered; creating a model for another name, a creation that
    raises, selecting and listing leave it as it was. *)
Theorem noise_model_after_calls {P : Platform} (cs : list call)
    (self : BackendManager) (name : string) :
  noise_models (after_all cs self) !! name =
    last_created (backends self) name cs (noise_models self !! name) /\
  BackendManager.get_noise_model name (after_all cs self) =
    (Ok (default NoiseModel_new
           (last_created (backends self) name cs
              (noise_models self !! name))),
     after_all cs self).
Proof.
  assert (Hcache : noise_models (after_all cs self) !! name =
            last_created (backends self) name cs (noise_models self !! name)).
  { revert self. induction cs as [|c cs IH]; intros self; [done |].
    change (after_all (c :: cs) self) with (after_all cs (after c self)).
    rewrite IH, after_backends, after_spec.
    destruct c as [|name'| |n|n]; simpl; try reflexivity.
    - by destruct (Dict.get name' (backends self)).
    - destruct (Dict.get n (backends self)) as [backend|]; simpl.
      + destruct (decide (n = name)) as [->|Hne].
        * by rewrite lookup_insert_eq.
        * by rewrite lookup_insert_ne.
      + by destruct (decide (n = name)). }
  split; [exact Hcache |].
  by rewrite get_noise_model_run, Hcache.
Qed.

(** ** Construction without discovery *)

(** X5. Without the provider module, or with no token or an empty one,
    the constructor makes no call to the provider: whatever the module
    would answer and whatever hub, group and project are given, it does
    what the two simulator constructors do, and the registry it returns
    when both return is the local one. *)
Theorem no_discovery_without_token {P : Platform}
    (IBMQ : option IBMQModule) (tok hub grp prj : option string) :
  IBMQ = None \/ truthy tok = false ->
  new IBMQ tok hub grp prj =
    (_ ← aer_simulator_init "statevector";
     _ ← aer_simulator_init "qasm";
     mret local_registry).
Proof.
  intros Hoff. rewrite new_run.
  assert (Hnone : listing IBMQ tok hub grp prj = None).
  { unfold listing. destruct Hoff as [-> | Htok]; [done |].
    rewrite Htok. by destruct IBMQ. }
  unfold remote_assignments. by rewrite Hnone.
Qed.

Lemma no_discovery_without_token_witness :
  QTranspileApp.backend_mgr (P := Example.patched)
    (Some (Example.ibmq [Example.lima]))
  = Ok local_registry.
Proof.
  apply (no_discovery_without_token (P := Example.patched)
           (Some (Example.ibmq [Example.lima])) None None None None).
  right. reflexivity.
Defined.

(** X6. The values the shell puts in its backend selector stay
    selectable: the list is read from a constructed registry, it starts
    with "Aer (statevector)", and at any later time [set_backend] on any
    of its values returns the backend registered under it. *)
Theorem selector_values_selectable {P : Platform}
    (IBMQ : option IBMQModule) (tok hub grp prj : option string)
    (self0 self1 self2 : BackendManager) (v : string) :
  new IBMQ tok hub grp prj = Ok self0 ->
  lifetime self0 self1 ->
  lifetime self1 self2 ->
  v ∈ QTranspileApp.combobox_values self1 ->
  QTranspileApp.initial_backend_var self1 = Some "Aer (statevector)" /\
  exists b,
    Dict.get v (backends self2) = Some b /\
    QTranspileApp.select_backend v self2 = (Ok b, set_active_backend b self2).
Proof.
  intros Hnew H01 H12 Hv.
  apply lifetime_backends in H01, H12.
  apply new_ok in Hnew as ->. simpl in H01.
  unfold QTranspileApp.initial_backend_var, QTranspileApp.combobox_values
    in *.
  split; [by rewrite H01 |].
  apply DictFacts.contains_keys, DictFacts.contains_get in Hv as [b Hb].
  exists b. unfold QTranspileApp.select_backend.
  rewrite set_backend_run, H12, Hb. done.
Qed.

Lemma selector_values_selectable_witness :
  QTranspileApp.initial_backend_var Example.registry
    = Some "Aer (statevector)" /\
  exists b,
    Dict.get "IBM lima"
      (backends (after (P := Example.patched)
                   (create_noise_model_call "IBM lima") Example.registry))
    = Some b /\
    QTranspileApp.select_backend "IBM lima"
      (after (P := Example.patched) (create_noise_model_call "IBM lima")
         Example.registry)
    = (Ok b,
       set_active_backend b
         (after (P := Example.patched) (create_noise_model_call "IBM lima")
            Example.registry)).
Proof.
  apply (selector_values_selectable (P := Example.patched)
           (Some (Example.ibmq [Example.lima])) (Some "token")
           None None None Example.registry Example.registry).
  - reflexivity.
  - apply lifetime_new.
  - apply lifetime_call, lifetime_new.
  - simpl. do 2 right. by left.
Defined.

(** ** Discovery, device by device *)

Lemma assigned_app_ok (pre post : list IBMBackend) :
  Forall (fun b => is_ok (BackendManager.register_remote b blank).1 = true)
         pre ->
  assigned (pre ++ post)%list = (assigned pre ++ assigned post)%list.
Proof.
  induction 1 as [|b pre Hb _ IH]; [done |]. simpl.
  unfold BackendManager.register_remote in Hb. run.
  destruct (ibm_configuration b) as [cfg|]; [| done].
  destruct (simulator cfg); [exact IH |]. simpl in Hb.
  destruct (ibm_name b) as [n|]; [| done].
  by rewrite IH.
Qed.

Lemma assigned_cut (pre post : list IBMBackend) (b : IBMBackend) :
  is_ok (BackendManager.register_remote b blank).1 = false ->
  assigned (pre ++ b :: post)%list = assigned pre.
Proof.
  intros Hb. induction pre as [|b' pre IH]; simpl.
  - unfold BackendManager.register_remote in Hb. run.
    destruct (ibm_configuration b) as [cfg|]; [| done].
    destruct (simulator cfg); [done |]. simpl in Hb.
    by destruct (ibm_name b).
  - destruct (ibm_configuration b') as [cfg|]; [| done].
    destruct (simulator cfg); [exact IH |].
    destruct (ibm_name b'); [by rewrite IH | done].
Qed.

(** Lookup in a dict filled from empty finds the last assignment. *)
Lemma get_assign_all (es : list (string * Backend)) (k : string) :
  Dict.get k (assign_all es []) = Dict.get k (rev es).
Proof.
  induction es as [|e es IH] using rev_ind; [done |].
  rewrite assign_all_snoc, rev_unit. destruct e as [k' v]. simpl.
  destruct (decide (k = k')) as [->|Hne].
  - apply DictFacts.get_set_eq.
  - rewrite DictFacts.get_set_ne by done. exact IH.
Qed.

Lemma get_rev_assigned (bs : list IBMBackend) (n : string) :
  Forall (fun b => is_ok (BackendManager.register_remote b blank).1 = true)
         bs ->
  Dict.get ("IBM " ++ n) (rev (assigned bs)) = IBM <$> last_device n bs.
Proof.
  unfold last_device.
  induction bs as [|b bs IH] using rev_ind; intros Hok; [done |].
  apply Forall_app in Hok as [Hbs Hb]. apply Forall_inv in Hb.
  rewrite assigned_app_ok, rev_app_distr, rev_unit by done.
  specialize (IH Hbs). simpl.
  unfold BackendManager.register_remote in Hb. run.
  unfold is_device_named at 1.
  destruct (ibm_configuration b) as [cfg|]; [| done].
  destruct (simulator cfg); [destruct (ibm_name b); exact IH |].
  simpl in Hb.
  destruct (ibm_name b) as [n'|]; [| done]. simpl.
  destruct (decide (n' = n)) as [->|Hne].
  - rewrite decide_True by reflexivity.
    rewrite (bool_decide_eq_true_2 (n = n) eq_refl). reflexivity.
  - rewrite decide_False.
    + rewrite (bool_decide_eq_false_2 (n' = n) Hne). exact IH.
    + intros Heq. injection Heq as Heq. change (n = n') in Heq. congruence.
Qed.

(** X7. When no call on a listed backend raises, the registry knows every
    device of the listing and no simulator: the key "IBM " + n holds the
    last device of the listing that reports the name n, and is absent
    when there is none. *)
Theorem remote_lookup_last_device {P : Platform} (IBMQ : option IBMQModule)
    (tok hub grp prj : option string) (bs : list IBMBackend)
    (self : BackendManager) (n : string) :
  listing IBMQ tok hub grp prj = Some (Ok bs) ->
  Forall (fun b => is_ok (BackendManager.register_remote b blank).1 = true)
         bs ->
  new IBMQ tok hub grp prj = Ok self ->
  Dict.get ("IBM " ++ n) (backends self) = IBM <$> last_device n bs.
Proof.
  intros Hlist Hok Hnew. apply new_ok in Hnew as ->.
  change (Dict.get ("IBM " ++ n)
            (assign_all (remote_assignments IBMQ tok hub grp prj) [])
          = IBM <$> last_device n bs).
  rewrite get_assign_all.
  unfold remote_assignments. rewrite Hlist. by apply get_rev_assigned.
Qed.

Lemma remote_lookup_last_device_witness :
  Dict.get ("IBM " ++ "lima") (backends Example.registry)
  = IBM <$> last_device "lima" [Example.lima; Example.lima].
Proof.
  apply (remote_lookup_last_device (P := Example.patched)
           (Some (Example.ibmq [Example.lima; Example.lima])) (Some "token")
           None None None).
  - reflexivity.
  - repeat constructor.
  - reflexivity.
Defined.

(** X8. A backend on which the loop body raises ends discovery: the
    registry is the one the constructor builds when the listing stops
    just before that backend. *)
Theorem failure_cuts_listing {P : Platform}
    (IBMQ IBMQ' : option IBMQModule)
    (tok hub grp prj tok' hub' grp' prj' : option string)
    (pre post : list IBMBackend) (b : IBMBackend) :
  listing IBMQ tok hub grp prj = Some (Ok (pre ++ b :: post)%list) ->
  listing IBMQ' tok' hub' grp' prj' = Some (Ok pre) ->
  is_ok (BackendManager.register_remote b blank).1 = false ->
  new IBMQ tok hub grp prj = new IBMQ' tok' hub' grp' prj'.
Proof.
  intros Hlist Hlist' Hb. rewrite !new_run.
  unfold remote_assignments. rewrite Hlist, Hlist'.
  by rewrite assigned_cut.
Qed.

Lemma failure_cuts_listing_witness :
  new (P := Example.patched)
      (Some (Example.ibmq [Example.lima; Example.broken; Example.lima]))
      (Some "token") None None None
  = new (P := Example.patched)
        (Some (Example.ibmq [Example.lima])) (Some "token") None None None.
Proof.
  apply (failure_cuts_listing (P := Example.patched) _ _ _ _ _ _ _ _ _ _
           [Example.lima] [Example.lima] Example.broken).
  - reflexivity.
  - reflexivity.
  - reflexivity.
Defined.

(** * Further properties of the bit-flip model *)

Lemma nearest_even_le (m : Q) (z : Z) :
  (m <= inject_Z z)%Q -> (Binary64.nearest_even m <= z)%Z.
Proof.
  intros Hm. unfold Binary64.nearest_even.
  pose proof (Qfloor_le m) as Hlo.
  assert (Hf : (Qfloor m <= z)%Z).
  { rewrite <- (Qfloor_Z z). by apply Qfloor_resp_le. }
  destruct (Qcompare_spec (m - inject_Z (Qfloor m)) (1 # 2)) as [He|Hl|Hg];
    [| exact Hf |].
  - assert (Hlt : (Qfloor m < z)%Z) by (rewrite Zlt_Qlt; lra).
    destruct (Z.even (Qfloor m)); lia.
  - assert (Hlt : (Qfloor m < z)%Z) by (rewrite Zlt_Qlt; lra). lia.
Qed.

(** Rounding does not lift a value of [0,1] above 1. *)
Lemma round_le_one (x : Q) :
  (0 <= x)%Q -> (x <= 1)%Q -> (Binary64.round x <= 1)%Q.
Proof.
  intros H0 H1. unfold Binary64.round.
  destruct (Qeq_bool x 0) eqn:Hz; [done |].
  apply Qeq_bool_neq in Hz.
  set (e := Binary64.exponent x).
  destruct (exponent_normal x Hz) as [Hm _]. fold e in Hm.
  rewrite (Qabs_pos x) in Hm by exact H0.
  pose proof (pow2_pos e) as Hs.
  pose proof (pow2_pos (- e)) as Hs'.
  pose proof (pow2_inv e) as Hinv.
  assert (Hmul : (x * 2 ^ (- e) <= 1 * 2 ^ (- e))%Q).
  { apply Qmult_le_compat_r; lra. }
  rewrite Qmult_1_l in Hmul.
  assert (He : (0 <= - e)%Z).
  { assert (H52 : (52 <= - e)%Z).
    { apply (Qpower_le_compat_l_inv 2); [lra | reflexivity]. }
    lia. }
  pose proof (Zpower_Qpower 2 (- e) He) as HN.
  change (inject_Z 2) with 2%Q in HN.
  assert (Hr : (Binary64.nearest_even (x * 2 ^ (- e)) <= 2 ^ (- e))%Z).
  { apply nearest_even_le. rewrite HN. exact Hmul. }
  rewrite Zle_Qle, HN in Hr.
  set (r := inject_Z (Binary64.nearest_even (x * 2 ^ (- e)))) in *.
  apply Qle_trans with (2 ^ (- e) * 2 ^ e)%Q.
  - apply Qmult_le_compat_r; [exact Hr | lra].
  - rewrite Hinv. apply Qle_refl.
Qed.

(** X9. For every [p] in [0,1] the two weights [sample_pauli] hands to
    [pauli_error] are probabilities: the weight of I, [1 - p] as the
    float subtraction yields it, lies in [0,1] like [p] itself, and it is
    0 only when [p] is 1. *)
Theorem bit_flip_weights_are_probabilities {P : Platform} (p : Q) :
  (0 <= p)%Q -> (p <= 1)%Q ->
  exists w,
    BackendManager.sample_pauli p =
      match pauli_error [("X", p); ("I", w)] with
      | Ok err => add_all_qubit_quantum_error err ["cx"] NoiseModel_new
      | Raise e => Raise e
      end /\
    (0 <= w)%Q /\ (w <= 1)%Q /\
    ((w == 0)%Q <-> (p == 1)%Q).
Proof.
  intros H0 H1. exists (Binary64.sub 1 p).
  split; [apply sample_pauli_run |].
  pose proof (sub_one_error p) as Hw.
  rewrite (Qabs_pos (1 - p)) in Hw by lra.
  apply Qabs_Qle_condition in Hw as [Hlo Hhi].
  unfold unit_roundoff in Hlo, Hhi.
  split; [lra |]. split.
  - apply round_le_one; lra.
  - split; intros Heq.
    + rewrite Heq in Hlo, Hhi. lra.
    + unfold Binary64.sub, Binary64.round.
      assert (Hz : Qeq_bool (1 - p) 0 = true).
      { apply Qeq_bool_iff. rewrite Heq. reflexivity. }
      rewrite Hz. reflexivity.
Qed.

Lemma bit_flip_weights_are_probabilities_witness :
  exists w,
    BackendManager.sample_pauli (P := Aer.platform) (1 # 4) =
      match Aer.pauli_error [("X", 1 # 4); ("I", w)] with
      | Ok err =>
          add_all_qubit_quantum_error (P := Aer.platform) err ["cx"]
            NoiseModel_new
      | Raise e => Raise e
      end /\
    (0 <= w)%Q /\ (w <= 1)%Q /\
    ((w == 0)%Q <-> (1 # 4 == 1)%Q).
Proof.
  apply (bit_flip_weights_are_probabilities (P := Aer.platform) (1 # 4)).
  - apply Qle_bool_iff. reflexivity.
  - apply Qle_bool_iff. reflexivity.
Defined.
